(** * Smart Finance Dashboard ([dash_new.py]): a shallow embedding

    The program is a Streamlit script.  Its own logic is the file loader
    ([load_data], [process_pdf]), the category detection, the canned
    recommendations and the budget allocation of [display_recommendations],
    and the axis selection of [create_dashboard].  The widgets, pandas,
    tabula and plotly are external collaborators: what they answer is
    taken from an environment, what the script tells them is recorded in
    a trace of events. *)

From Stdlib Require Import ZArith QArith Qcanon Ascii.
From Stdlib Require String.
From stdpp Require Import base list strings numbers pretty.

Close Scope Q_scope.
Set Warnings "-clear-no-such-hyp".

(** ** Python string primitives

    Labels and file names are the UTF-8 bytes of a Python [str].  [lower]
    folds the ASCII letters only: it is [str.lower] on ASCII text, and
    stands for letter case in file endings.  What [str.lower] answers on
    other text is the runtime's, see [PyStr]. *)
Module Py.

Definition ascii_lower (c : ascii) : ascii :=
  let n := N_of_ascii c in
  if ((65 <=? n) && (n <=? 90))%N then ascii_of_N (n + 32) else c.

Fixpoint lower (s : string) : string :=
  match s with
  | EmptyString => EmptyString
  | String c r => String (ascii_lower c) (lower r)
  end.

(** [s.isascii()] *)
Fixpoint isascii (s : string) : bool :=
  match s with
  | EmptyString => true
  | String c r => (N_of_ascii c <? 128)%N && isascii r
  end.

(** [s.startswith(p)] *)
Fixpoint startswith (s p : string) {struct p} : bool :=
  match p, s with
  | EmptyString, _ => true
  | String a p', String b s' => if Ascii.eqb a b then startswith s' p' else false
  | String _ _, EmptyString => false
  end.

Fixpoint drop_chars (k : nat) (s : string) : string :=
  match k, s with
  | O, _ => s
  | S k', String _ r => drop_chars k' r
  | S _, EmptyString => EmptyString
  end.

(** [s.endswith(suffix)]: the last [len(suffix)] characters of [s] are
    [suffix]. *)
Definition endswith (s suffix : string) : bool :=
  let n := String.length s in
  let m := String.length suffix in
  (m <=? n)%nat && String.eqb (drop_chars (n - m) s) suffix.

(** [needle in hay] on strings: [needle] occurs at some offset. *)
Fixpoint contains (needle hay : string) : bool :=
  startswith hay needle ||
  match hay with
  | EmptyString => false
  | String _ r => contains needle r
  end.

(** [str(z)] for an [int]. *)
Definition str_of_int (z : Z) : string := pretty z.

Definition two_digits (n : Z) : string :=
  if (n <? 10)%Z then "0" +:+ pretty n else pretty n.

(** Nearest integer to [num/den] for [0 <= num], [0 < den], ties to even. *)
Definition round_half_even (num den : Z) : Z :=
  let k := (num / den)%Z in
  let r := (num mod den)%Z in
  match (2 * r ?= den)%Z with
  | Lt => k
  | Gt => (k + 1)%Z
  | Eq => if Z.even k then k else (k + 1)%Z
  end.

(** [format(q, ".2f")].  The script formats the float [savings_goal/30];
    for an integer goal the exact quotient is never within a sixth of a cent
    of a rounding tie, so the float and the exact quotient print alike. *)
Definition format_2f (q : Qc) : string :=
  let num := Qnum (this q) in
  let den := Zpos (Qden (this q)) in
  let cents := round_half_even (100 * Z.abs num) den in
  (if (num <? 0)%Z then "-" else EmptyString) +:+
  pretty (cents / 100)%Z +:+ "." +:+ two_digits (cents mod 100)%Z.

End Py.

(** Python's [str.lower], which folds every cased letter of Unicode: taken
    from the runtime; on ASCII text it is the folding of [A]-[Z]. *)
Class PyStr := {
  str_lower : string → string;
  str_lower_ascii : ∀ s, Py.isascii s = true → str_lower s = Py.lower s
}.

(** ** Outcomes of Python calls

    A call returns a value or raises; [Raise e] carries the text of the
    exception, the [str(e)] that [process_pdf] prints. *)
Inductive outcome (A : Type) : Type :=
| Return (a : A)
| Raise (e : string).
Arguments Return {A} a.
Arguments Raise {A} e.

#[global] Instance outcome_ret : MRet outcome := @Return.
#[global] Instance outcome_bind : MBind outcome := λ A B f m,
  match m with
  | Return a => f a
  | Raise e => Raise e
  end.

(** ** The tabular dataset (a pandas [DataFrame])

    Column labels are [str]; a label may be carried by several columns
    (the PDF extractor makes such frames), in which case [data[lbl]] is a
    frame, not a column.  The dtypes are those that pandas' readers infer;
    of these [select_dtypes(include=["float", "int"])] keeps [float64] and
    [int64]. *)
Inductive dtype := object | float64 | int64 | uint64 | bool_ | datetime64.

Inductive cell :=
| Str (s : string)
| Int (z : Z)
| Float (q : Qc)
| NaN.

#[global] Instance dtype_eq_dec : EqDecision dtype.
Proof. solve_decision. Defined.
#[global] Instance cell_eq_dec : EqDecision cell.
Proof. solve_decision. Defined.

Record column := { label : string; col_dtype : dtype; values : list cell }.

Record DataFrame := { columns : list column }.

Definition labels (data : DataFrame) : list string := label <$> columns data.

(** [data.select_dtypes(include=...).columns] *)
Definition select_dtypes (include : list dtype) (data : DataFrame) : list string :=
  label <$> filter (λ c, col_dtype c ∈ include) (columns data).

(** What [data[lbl]] answers: the column of that label, or the frame of
    all the columns of that label when there are several. *)
Inductive indexed :=
| series (c : column)
| subframe (cs : list column).

(** [data[lbl]]; a missing label is a [KeyError]. *)
Definition getitem (data : DataFrame) (lbl : string) : outcome indexed :=
  match filter (λ c, label c = lbl) (columns data) with
  | [] => Raise "KeyError"
  | [c] => Return (series c)
  | cs => Return (subframe cs)
  end.

(** [Series.unique()]: a scan that keeps a value the first time it is met
    ([seen] is the hash table of the values met so far). *)
Fixpoint unique_from {A} `{EqDecision A} (seen : list A) (vals : list A) : list A :=
  match vals with
  | [] => []
  | v :: rest =>
      if decide (v ∈ seen) then unique_from seen rest
      else v :: unique_from (v :: seen) rest
  end.

Definition unique {A} `{EqDecision A} (vals : list A) : list A := unique_from [] vals.

(** ** The script's surroundings *)
Record UploadedFile := { name : string; content : string }.

Inductive palette := Bold | Pastel | Safe | Prism | Vivid.

(** A chart specification, one constructor per plotly call of the script.
    An axis is what a select box answered, [None] included. *)
Inductive figure :=
| px_bar (x y : option string) (colors : palette)
| px_line (x y : option string) (colors : palette)
| px_pie (names_ values_ : option string) (colors : palette)
| px_scatter_3d (x y z : option string) (color : string) (colors : palette)
| px_area (x y : option string) (colors : palette)
| px_pie_of (values_ : list Qc) (names_ : list string) (title : string).

(** What the script tells its collaborators, in order.  Headings and
    other constant texts ([st.title], [st.subheader], [st.markdown]) are
    not recorded. *)
Inductive event :=
| st_error (msg : string)
| st_write (line : string)
| st_selectbox (lbl : string) (options : list string)
| st_plotly_chart (fig : figure)
| called (fn : string).

(** pandas and tabula: any of the three calls may raise. *)
Class Tabular := {
  read_csv : UploadedFile → outcome DataFrame;
  read_pdf : UploadedFile → outcome (list DataFrame);
  pd_concat : list DataFrame → outcome DataFrame
}.

(** The user's hand on the select boxes: the index chosen in the box with
    a given label. *)
Class Widgets := { chosen : string → nat }.

(** A run of a piece of the script: the events so far and how it ended. *)
Definition Script (A : Type) : Type := list event * outcome A.

#[global] Instance script_ret : MRet Script := λ A a, ([], Return a).
#[global] Instance script_bind : MBind Script := λ A B f m,
  match m with
  | (t, Return a) => let '(t', r) := f a in (t ++ t', r)
  | (t, Raise e) => (t, Raise e)
  end.

Definition emit (e : event) : Script unit := ([e], Return ()).

Definition lift {A} (r : outcome A) : Script A := ([], r).

(** A call to an external function [fn] that answered [r]. *)
Definition call {A} (fn : string) (r : outcome A) : Script A := ([called fn], r).

(** [try: body / except Exception as e: handler(e)].  A [Raise] is an
    exception of class [Exception], the ones that line 21 catches. *)
Definition try_except {A} (body : Script A) (handler : string → Script A) : Script A :=
  match body with
  | (t, Return a) => (t, Return a)
  | (t, Raise e) => let '(t', r) := handler e in (t ++ t', r)
  end.

(** [st.selectbox(lbl, options)]: one of the options (the first unless
    the user chose another), [None] when there is none. *)
Definition selectbox `{Widgets} (lbl : string) (options : list string) : Script (option string) :=
  emit (st_selectbox lbl options);;
  mret (match options !! chosen lbl with
        | Some o => Some o
        | None => head options
        end).

(** ** The loader (lines 13-33) *)
Definition process_pdf `{Tabular} (file : UploadedFile) : Script (option DataFrame) :=
  try_except
    (df_list ← call "tabula.read_pdf" (read_pdf file);
     if bool_decide (df_list ≠ []) then
       df ← call "pd.concat" (pd_concat df_list);
       mret (Some df)
     else
       emit (st_error "No tables found in the PDF.");;
       mret None)
    (λ e,
       emit (st_error ("Error reading PDF: " +:+ e));;
       mret None).

Definition load_data `{Tabular} (file : UploadedFile) : Script (option DataFrame) :=
  if Py.endswith (name file) ".csv" then
    df ← call "pd.read_csv" (read_csv file);
    mret (Some df)
  else if Py.endswith (name file) ".pdf" then
    process_pdf file
  else
    emit (st_error "Unsupported file format. Please upload a CSV or PDF file.");;
    mret None.

(** ** Category detection (lines 63-71)

    [categories] is a numpy array when it comes from a column and a
    Python list when it is the built-in one; line 77 tells them apart. *)
Inductive categories :=
| ndarray (vals : list cell)
| pylist (items : list string).

Definition fallback_categories : list string :=
  ["Essential Bills"; "Savings"; "Investment"; "Entertainment"; "Shopping"].

(** [data[lbl].unique()]: a frame has no [unique]. *)
Definition column_unique (data : DataFrame) (lbl : string) : outcome categories :=
  x ← getitem data lbl;
  match x with
  | series c => mret (ndarray (unique (values c)))
  | subframe _ => Raise "AttributeError"
  end.

(** The columns of a frame without columns are a [RangeIndex], on which
    the [.str] accessor of line 63 raises. *)
Definition detect_categories `{PyStr} (data : DataFrame) : outcome categories :=
  if bool_decide (columns data = []) then Raise "AttributeError"
  else if bool_decide ("category" ∈ str_lower <$> labels data) then
    match filter (λ l, str_lower l = "category") (labels data) with
    | lbl :: _ => column_unique data lbl
    | [] => Raise "IndexError"
    end
  else
    let categorical_columns := select_dtypes [object] data in
    match categorical_columns with
    | [] => Return (pylist fallback_categories)
    | lbl :: _ => column_unique data lbl
    end.

(** ** Recommendations (lines 83-96)

    The body of the loop for one label; a label is a [str] here (on
    anything else [category.lower()] raises and the script stops). *)
Definition recommend `{PyStr} (savings_goal : Z) (category : string) : Script unit :=
  emit (st_write ("📊 " +:+ category +:+ " Recommendations:"));;
  if Py.contains "saving" (str_lower category) then
    emit (st_write "- Set up automatic transfers to savings account");;
    emit (st_write ("- To reach your $" +:+ Py.str_of_int savings_goal +:+
                    " monthly goal, save $" +:+
                    Py.format_2f (Qc_of_Z savings_goal / Qc_of_Z 30) +:+ " daily"))
  else if Py.contains "invest" (str_lower category) then
    emit (st_write "- Consider low-cost index funds");;
    emit (st_write "- Diversify your investment portfolio")
  else if Py.contains "bill" (str_lower category) then
    emit (st_write "- Set up automatic bill payments");;
    emit (st_write "- Review subscriptions monthly")
  else
    emit (st_write ("- Create a budget for " +:+ category));;
    emit (st_write ("- Track " +:+ str_lower category +:+ " expenses regularly")).

Fixpoint recommendations `{PyStr} (savings_goal : Z) (priority_categories : list string) : Script unit :=
  match priority_categories with
  | [] => mret ()
  | category :: rest =>
      recommend savings_goal category;;
      recommendations savings_goal rest
  end.

(** ** Budget allocation (lines 100-119) *)

(** A Python [dict] from labels to fractions: the items in insertion
    order; assigning to a key that is present replaces its value in place. *)
Definition dict := list (string * Qc).

Fixpoint dict_set (k : string) (v : Qc) (d : dict) : dict :=
  match d with
  | [] => [(k, v)]
  | (k', v') :: rest =>
      if decide (k = k') then (k, v) :: rest else (k', v') :: dict_set k v rest
  end.

Fixpoint dict_get (k : string) (d : dict) : option Qc :=
  match d with
  | [] => None
  | (k', v') :: rest => if decide (k = k') then Some v' else dict_get k rest
  end.

Definition dict_keys (d : dict) : list string := d.*1.
Definition dict_values (d : dict) : list Qc := d.*2.

Definition total (vs : list Qc) : Qc := foldr Qcplus 0%Qc vs.

(** [x / d] for a float [x] and an int [d], in exact arithmetic. *)
Definition truediv (x : Qc) (d : Z) : outcome Qc :=
  if (d =? 0)%Z then Raise "ZeroDivisionError" else Return (x / Qc_of_Z d)%Qc.

(** The variables of the loop; [divisions] is a ghost counter of the
    divisions executed. *)
Record alloc_state := {
  allocation : dict;
  remaining : Qc;
  divisions : nat
}.

Definition alloc_step (num_categories i : Z) (category : string) (s : alloc_state) : outcome alloc_state :=
  if (i =? num_categories - 1)%Z then
    Return {| allocation := dict_set category (remaining s) (allocation s);
              remaining := remaining s;
              divisions := divisions s |}
  else
    share ← truediv (remaining s) (num_categories - i);
    Return {| allocation := dict_set category share (allocation s);
              remaining := (remaining s - share)%Qc;
              divisions := S (divisions s) |}.

(** [for i, category in enumerate(priority_categories)], from index [i]. *)
Fixpoint alloc_loop (num_categories i : Z) (cats : list string) (s : alloc_state) : outcome alloc_state :=
  match cats with
  | [] => Return s
  | category :: rest =>
      s' ← alloc_step num_categories i category s;
      alloc_loop num_categories (i + 1) rest s'
  end.

(** The allocation block: [None] when the guard [num_categories > 0]
    fails and [allocation] is never bound. *)
Definition budget_allocation (priority_categories : list string) : outcome (option dict * nat) :=
  let num_categories := Z.of_nat (length priority_categories) in
  if (0 <? num_categories)%Z then
    s ← alloc_loop num_categories 0 priority_categories
          {| allocation := []; remaining := 1%Qc; divisions := 0 |};
    Return (Some (allocation s), divisions s)
  else Return (None, 0%nat).

Definition allocation_chart (priority_categories : list string) : Script unit :=
  r ← lift (budget_allocation priority_categories);
  match r.1 with
  | Some allocation =>
      emit (st_plotly_chart (px_pie_of (dict_values allocation) (dict_keys allocation)
                                       "Recommended Monthly Budget Distribution"))
  | None => mret ()
  end.

(** ** The chart builder (lines 122-147) *)
Definition chart_types : list string :=
  ["Bar Chart"; "Line Chart"; "Pie Chart"; "3D Scatter Plot"; "Area Chart"].

(** [data.columns[0]] *)
Definition first_label (data : DataFrame) : outcome string :=
  match labels data with
  | lbl :: _ => Return lbl
  | [] => Raise "IndexError"
  end.

Definition create_dashboard `{Widgets} (data : DataFrame) : Script unit :=
  chart_type ← selectbox "Select Chart Type" chart_types;
  let numeric_columns := select_dtypes [float64; int64] data in
  if bool_decide (numeric_columns = []) then
    emit (st_error "No numeric columns found for visualization.")
  else
    x_axis ← selectbox "X-Axis" numeric_columns;
    y_axis ← selectbox "Y-Axis" numeric_columns;
    fig ← (if bool_decide (chart_type = Some "Bar Chart") then
             mret (px_bar x_axis y_axis Bold)
           else if bool_decide (chart_type = Some "Line Chart") then
             mret (px_line x_axis y_axis Pastel)
           else if bool_decide (chart_type = Some "Pie Chart") then
             category ← selectbox "Category Column" (labels data);
             mret (px_pie category y_axis Safe)
           else if bool_decide (chart_type = Some "3D Scatter Plot") then
             z_axis ← selectbox "Z-Axis" numeric_columns;
             color ← lift (first_label data);
             mret (px_scatter_3d x_axis y_axis z_axis color Prism)
           else if bool_decide (chart_type = Some "Area Chart") then
             mret (px_area x_axis y_axis Vivid)
           else lift (Raise "UnboundLocalError"));
    emit (st_plotly_chart fig).

(** ** Vocabulary of the properties and sample data *)

(** A runtime for ASCII text: on ASCII strings every [PyStr] agrees with
    it. *)
Definition ascii_runtime : PyStr :=
  {| str_lower := Py.lower; str_lower_ascii := λ _ _, eq_refl |}.

(** A column labelled "category" in some letter case; a text-typed column. *)
Definition named_category `{PyStr} (c : column) : Prop := str_lower (label c) = "category".
Definition text_typed (c : column) : Prop := col_dtype c = object.

(** The specification's wording of the fallback condition. *)
Definition fallback_iff_no_text_column `{PyStr} (data : DataFrame) : Prop :=
  detect_categories data = Return (pylist fallback_categories) ↔
  Forall (λ c, ¬ text_typed c) (columns data).

Definition coded_categories : DataFrame :=
  {| columns := [ {| label := "category"; col_dtype := int64;
                     values := [Int 3; Int 1; Int 3] |};
                  {| label := "amount"; col_dtype := float64;
                     values := [Float 1; Float 1; Float 1] |} ] |}.

Definition food_rent : DataFrame :=
  {| columns := [ {| label := "Category"; col_dtype := object;
                     values := [Str "Food"; Str "Food"; Str "Rent"] |} ] |}.

#[global] Instance named_category_dec `{PyStr} c : Decision (named_category c).
Proof. unfold named_category. apply _. Defined.
#[global] Instance text_typed_dec c : Decision (text_typed c).
Proof. unfold text_typed. apply _. Defined.

Definition no_rows : DataFrame :=
  {| columns := [ {| label := "amount"; col_dtype := float64; values := [] |};
                  {| label := "payee"; col_dtype := object; values := [] |} ] |}.


(** File names by their ending. *)
Definition csv_named (file : UploadedFile) : Prop := ∃ stem, name file = stem +:+ ".csv".
Definition pdf_named (file : UploadedFile) : Prop := ∃ stem, name file = stem +:+ ".pdf".

(** The run that reports the unsupported format and yields no dataset. *)
Definition unsupported : Script (option DataFrame) :=
  ([st_error "Unsupported file format. Please upload a CSV or PDF file."], Return None).

(** The messages of the [st.error] calls of a trace, and the external
    functions it called. *)
Definition errors (t : list event) : list string :=
  omap (λ e, match e with st_error msg => Some msg | _ => None end) t.

Definition calls (t : list event) : list string :=
  omap (λ e, match e with called fn => Some fn | _ => None end) t.

(** The specification's wording of the failure of the PDF path: no
    dataset exactly when the extractor yields no table or raises. *)
Definition pdf_fails_iff_extractor_fails `{Tabular} (file : UploadedFile) : Prop :=
  (process_pdf file).2 = Return None ↔
  read_pdf file = Return [] ∨ (∃ e, read_pdf file = Raise e).

Definition statement_pdf : UploadedFile := {| name := "statement.pdf"; content := "%PDF" |}.

Definition one_table : DataFrame :=
  {| columns := [ {| label := "amount"; col_dtype := float64; values := [Float 1] |} ] |}.

(** Two tables of a bank statement: the first has two columns under the
    header "Amount", the second has other columns. *)
Definition first_page_table : DataFrame :=
  {| columns := [ {| label := "Date"; col_dtype := object; values := [Str "01/02"] |};
                  {| label := "Amount"; col_dtype := float64; values := [Float 1] |};
                  {| label := "Amount"; col_dtype := float64; values := [Float 2] |} ] |}.

Definition second_page_table : DataFrame :=
  {| columns := [ {| label := "Date"; col_dtype := object; values := [Str "01/03"] |};
                  {| label := "Amount"; col_dtype := float64; values := [Float 1] |};
                  {| label := "Balance"; col_dtype := float64; values := [Float 2] |} ] |}.

(** An extractor that finds these two tables.  To stack frames whose
    column lists differ pandas reindexes each of them, which it refuses for
    a frame with a repeated label. *)
Definition clashing_tables : Tabular :=
  {| read_csv := λ _, Raise "ParserError";
     read_pdf := λ _, Return [first_page_table; second_page_table];
     pd_concat := λ ts,
       if bool_decide (Forall (λ t, NoDup (labels t)) ts)
       then Return (default one_table (head ts))
       else Raise "Reindexing only valid with uniquely valued Index objects" |}.

(** An extractor that finds one table. *)
Definition single_table : Tabular :=
  {| read_csv := λ _, Return one_table;
     read_pdf := λ _, Return [one_table];
     pd_concat := λ ts, Return (default one_table (head ts)) |}.

(** The dict after [allocation[c] = v] for each [c] of [cats] in turn. *)
Definition assign_each (v : Qc) (cats : list string) (d : dict) : dict :=
  foldl (λ d c, dict_set c v d) d cats.

(** The specification's wording of the allocator: for every selection,
    the empty one included, a map of the size of the selection is returned. *)
Definition allocator_returns_a_map (l : list string) : Prop :=
  ∃ m divs, budget_allocation l = Return (Some m, divs) ∧
            length m = length l ∧
            (∀ c, c ∈ l → dict_get c m = Some (1 / Qc_of_Z (Z.of_nat (length l)))%Qc) ∧
            (l ≠ [] → total (dict_values m) = 1%Qc) ∧
            (l = [] → divs = 0).

(** A string mentions [k] when [k] occurs in it; a label carries the
    keyword [k] when its lower-case form mentions [k]. *)
Definition mentions (k s : string) : Prop := ∃ pre post, s = pre +:+ k +:+ post.
Definition keyword_in `{PyStr} (k category : string) : Prop := mentions k (str_lower category).

(** The lines of the four pieces of advice. *)
Definition heading (category : string) : event :=
  st_write ("📊 " +:+ category +:+ " Recommendations:").

Definition savings_advice (savings_goal : Z) : list event :=
  [ st_write "- Set up automatic transfers to savings account";
    st_write ("- To reach your $" +:+ Py.str_of_int savings_goal +:+
              " monthly goal, save $" +:+
              Py.format_2f (Qc_of_Z savings_goal / Qc_of_Z 30) +:+ " daily") ].

Definition investment_advice : list event :=
  [ st_write "- Consider low-cost index funds";
    st_write "- Diversify your investment portfolio" ].

Definition bill_advice : list event :=
  [ st_write "- Set up automatic bill payments";
    st_write "- Review subscriptions monthly" ].

Definition generic_advice `{PyStr} (category : string) : list event :=
  [ st_write ("- Create a budget for " +:+ category);
    st_write ("- Track " +:+ str_lower category +:+ " expenses regularly") ].

(** A numeric-typed column, and a column that
    [select_dtypes(include=["float", "int"])] keeps: an unsigned column is
    numeric and is not kept. *)
Definition numeric (c : column) : Prop := col_dtype c ∈ [float64; int64; uint64].
Definition plottable (c : column) : Prop := col_dtype c ∈ [float64; int64].

#[global] Instance numeric_dec c : Decision (numeric c).
Proof. unfold numeric. apply _. Defined.
#[global] Instance plottable_dec c : Decision (plottable c).
Proof. unfold plottable. apply _. Defined.

(** The axes of a chart: the columns plotted as numbers. *)
Definition axes (fig : figure) : list (option string) :=
  match fig with
  | px_bar x y _ | px_line x y _ | px_area x y _ => [x; y]
  | px_pie _ v _ => [v]
  | px_scatter_3d x y z _ _ => [x; y; z]
  | px_pie_of _ _ _ => []
  end.

Definition is_selectbox (e : event) : Prop :=
  match e with st_selectbox _ _ => True | _ => False end.

Definition payees_only : DataFrame :=
  {| columns := [ {| label := "payee"; col_dtype := object;
                     values := [Str "Landlord"; Str "Grocer"] |} ] |}.

(** What [read_csv] makes of a column of counts above 2^63. *)
Definition big_counts : DataFrame :=
  {| columns := [ {| label := "n"; col_dtype := uint64;
                     values := [Int 18446744073709551615] |} ] |}.

Definition ledger : DataFrame :=
  {| columns := [ {| label := "payee"; col_dtype := object;
                     values := [Str "Landlord"; Str "Grocer"] |};
                  {| label := "amount"; col_dtype := float64;
                     values := [Float 1; Float 2] |};
                  {| label := "day"; col_dtype := int64;
                     values := [Int 1; Int 15] |} ] |}.

(** A user who picks the 3D scatter plot and the second entry elsewhere. *)
Definition scatter_user : Widgets :=
  {| chosen := λ lbl, if bool_decide (lbl = "Select Chart Type") then 3 else 1 |}.

(** ** The pages (lines 54-80 and 150-177)

    A page shows the events of the components and widgets of its own.
    The uploader's own filter on the extension is Streamlit's and is not
    modelled: any uploaded file reaches [load_data]. *)
Inductive page_event :=
| shown (e : event)
| st_warning (msg : string)
| st_success (msg : string)
| st_dataframe (data : DataFrame)
| st_radio (lbl : string) (options : list string)
| st_file_uploader (lbl : string) (types : list string)
| st_slider (lbl : string) (lo hi : Z)
| st_multiselect (lbl : string) (options : list cell).

(** One interaction: the page chosen, the file in the uploader, the
    slider, the options picked in the multiselect (by index, in the order
    of picking), and how Python prints a float. *)
Class Session := {
  page_choice : nat;
  upload : option UploadedFile;
  slider_value : Z;
  picks : list nat;
  repr_float : Qc → string
}.

Record Page (A : Type) : Type := page { page_trace : list page_event; page_result : outcome A }.
Arguments page {A} _ _.
Arguments page_trace {A} _.
Arguments page_result {A} _.

#[global] Instance page_ret : MRet Page := λ A a, page [] (Return a).
#[global] Instance page_bind : MBind Page := λ A B f m,
  match page_result m with
  | Return a => page (page_trace m ++ page_trace (f a)) (page_result (f a))
  | Raise e => page (page_trace m) (Raise e)
  end.

Definition page_emit (e : page_event) : Page unit := page [e] (Return ()).

(** A component run inside a page. *)
Definition show {A} (m : Script A) : Page A := page (shown <$> m.1) m.2.

(** [st.sidebar.radio]: one of the options, the first by default. *)
Definition radio `{Session} (lbl : string) (options : list string) : Page (option string) :=
  page_emit (st_radio lbl options);;
  mret (match options !! page_choice with
        | Some o => Some o
        | None => head options
        end).

Definition file_uploader `{Session} (lbl : string) (types : list string) : Page (option UploadedFile) :=
  page_emit (st_file_uploader lbl types);;
  mret upload.

(** [st.slider(lbl, lo, hi, default)]: a value between the bounds. *)
Definition slider `{Session} (lbl : string) (lo hi : Z) : Page Z :=
  page_emit (st_slider lbl lo hi);;
  mret (Z.max lo (Z.min hi slider_value)).

(** [st.multiselect]: the options picked, each once, in the order of
    picking. *)
Definition multiselect `{Session} (lbl : string) (options : list cell) : Page (list cell) :=
  page_emit (st_multiselect lbl options);;
  mret (omap (λ i, options !! i) (unique picks)).

(** [categories.tolist() if isinstance(categories, np.ndarray) else categories] *)
Definition options_of (cats : categories) : list cell :=
  match cats with
  | ndarray vals => vals
  | pylist items => Str <$> items
  end.

(** [str(category)] inside the f-string of the heading. *)
Definition py_str `{Session} (c : cell) : string :=
  match c with
  | Str s => s
  | Int z => pretty z
  | Float q => repr_float q
  | NaN => "nan"
  end.

Definition as_str (c : cell) : option string :=
  match c with
  | Str s => Some s
  | _ => None
  end.

(** The body of the loop of lines 83-96 for any selected value: on a
    value that is no [str] the heading is written and [category.lower()]
    raises. *)
Definition recommend_value `{PyStr} `{Session} (savings_goal : Z) (category : cell) : Script unit :=
  match category with
  | Str s => recommend savings_goal s
  | _ =>
      emit (st_write ("📊 " +:+ py_str category +:+ " Recommendations:"));;
      lift (Raise "AttributeError")
  end.

Fixpoint recommend_values `{PyStr} `{Session} (savings_goal : Z) (priority_categories : list cell) : Script unit :=
  match priority_categories with
  | [] => mret ()
  | category :: rest =>
      recommend_value savings_goal category;;
      recommend_values savings_goal rest
  end.

(** [display_recommendations(data)].  Once the loop has run through,
    every selected value is a [str], and the allocation is over these. *)
Definition display_recommendations `{PyStr} `{Session} (data : option DataFrame) : Page unit :=
  match data with
  | None => page_emit (st_warning "Please upload a CSV or PDF file first!⚠️")
  | Some data =>
      categories ← show (lift (detect_categories data));
      savings_goal ← slider "Monthly Savings Goal ($)" 0 5000;
      priority_categories ← multiselect "Select Priority Categories" (options_of categories);
      show (recommend_values savings_goal priority_categories);;
      show (allocation_chart (omap as_str priority_categories))
  end.

Definition pages : list string := ["Data Analytics"; "Recommendations"].

(** [main()] *)
Definition main `{PyStr} `{Session} `{Tabular} `{Widgets} : Page unit :=
  page_name ← radio "Go to" pages;
  if bool_decide (page_name = Some "Data Analytics") then
    uploaded_file ← file_uploader "Upload CSV or PDF File" ["csv"; "pdf"];
    match uploaded_file with
    | Some file =>
        data ← show (load_data file);
        match data with
        | Some data =>
            page_emit (st_success "Data loaded successfully!🥳🙌🏻");;
            show (emit (st_write "### Uploaded Data Preview"));;
            page_emit (st_dataframe data);;
            show (create_dashboard data)
        | None => mret ()
        end
    | None => mret ()
    end
  else if bool_decide (page_name = Some "Recommendations") then
    uploaded_file ← file_uploader "Upload CSV or PDF File" ["csv"; "pdf"];
    match uploaded_file with
    | Some file =>
        data ← show (load_data file);
        match data with
        | Some data => display_recommendations (Some data)
        | None => mret ()
        end
    | None => mret ()
    end
  else mret ().

Definition type_column : DataFrame :=
  {| columns := [ {| label := "amount"; col_dtype := float64;
                     values := [Float 1; Float 2; Float 1] |};
                  {| label := "Type"; col_dtype := object;
                     values := [Str "A"; Str "B"; Str "A"] |};
                  {| label := "note"; col_dtype := object;
                     values := [Str "x"; Str "y"; Str "z"] |} ] |}.

(** The chart type a figure stands for, as the select box names it. *)
Definition chart_name (fig : figure) : string :=
  match fig with
  | px_bar _ _ _ => "Bar Chart"
  | px_line _ _ _ => "Line Chart"
  | px_pie _ _ _ | px_pie_of _ _ _ => "Pie Chart"
  | px_scatter_3d _ _ _ _ _ => "3D Scatter Plot"
  | px_area _ _ _ => "Area Chart"
  end.

(** A user who picks the pie chart and the second entry elsewhere. *)
Definition pie_user : Widgets :=
  {| chosen := λ lbl, if bool_decide (lbl = "Select Chart Type") then 2 else 1 |}.

(** What the multiselect and the slider answer in a session. *)
Definition selection `{Session} (cats : categories) : list cell :=
  omap (λ i, options_of cats !! i) (unique picks).

Definition goal `{Session} : Z := Z.max 0 (Z.min 5000 slider_value).

(** The two widgets [main] always shows. *)
Definition radio_box : page_event := st_radio "Go to" pages.
Definition upload_box : page_event :=
  st_file_uploader "Upload CSV or PDF File" ["csv"; "pdf"].

Definition bank_csv : UploadedFile := {| name := "bank.csv"; content := "a,b" |}.

(** A visit to the recommendations page: goal 900, the second category
    picked, then the first. *)
Definition planner : Session :=
  {| page_choice := 1; upload := Some bank_csv; slider_value := 900;
     picks := [1; 0]; repr_float := λ _, "1.0" |}.

(** A visit to the analytics page with a file, and one without. *)
Definition analyst : Session :=
  {| page_choice := 0; upload := Some bank_csv; slider_value := 1000;
     picks := []; repr_float := λ _, "1.0" |}.

Definition visitor : Session :=
  {| page_choice := 0; upload := None; slider_value := 1000;
     picks := []; repr_float := λ _, "1.0" |}.


(** A table with two columns under the one header "Category", as the PDF
    extractor may make it. *)
Definition category_twice : DataFrame :=
  {| columns := [ {| label := "Category"; col_dtype := object;
                     values := [Str "Food"; Str "Rent"] |};
                  {| label := "Amount"; col_dtype := object;
                     values := [Str "12.50"; Str "900.00"] |};
                  {| label := "Category"; col_dtype := object;
                     values := [Str "Need"; Str "Need"] |} ] |}.

(** An extractor that finds the one table with the repeated header, and
    a visit to the recommendations page with a PDF. *)
Definition repeated_header : Tabular :=
  {| read_csv := λ _, Raise "ParserError";
     read_pdf := λ _, Return [category_twice];
     pd_concat := λ ts, Return (default one_table (head ts)) |}.

Definition pdf_planner : Session :=
  {| page_choice := 1; upload := Some statement_pdf; slider_value := 900;
     picks := [0]; repr_float := λ _, "1.0" |}.

(** * Properties *)

(** ** The string primitives meet their Python meaning *)
Section py_facts.
Import Py.

Lemma append_cons (c : ascii) (s t : string) : String c s +:+ t = String c (s +:+ t).
Proof. reflexivity. Qed.

Lemma append_nil (t : string) : EmptyString +:+ t = t.
Proof. reflexivity. Qed.

Lemma length_append (s t : string) :
  String.length (s +:+ t) = String.length s + String.length t.
Proof.
  induction s as [|c s IH]; [done|].
  rewrite append_cons. simpl. by rewrite IH.
Qed.

Lemma append_assoc (s t u : string) : (s +:+ t) +:+ u = s +:+ t +:+ u.
Proof.
  induction s as [|c s IH]; [done|].
  rewrite !append_cons. by rewrite IH.
Qed.

Lemma startswith_spec (s p : string) :
  startswith s p = true ↔ ∃ rest, s = p +:+ rest.
Proof.
  revert s. induction p as [|a p IH]; intros s; simpl.
  - split; [eauto | done].
  - destruct s as [|b s].
    + split; [done | by intros [? ?]].
    + destruct (Ascii.eqb_spec a b) as [->|Hne].
      * rewrite IH. split; intros [rest Hr]; exists rest.
        -- by rewrite append_cons, Hr.
        -- rewrite append_cons in Hr. congruence.
      * split; [done | intros [rest Hr]; rewrite append_cons in Hr; congruence].
Qed.

Lemma drop_chars_append (pre s : string) :
  drop_chars (String.length pre) (pre +:+ s) = s.
Proof.
  induction pre as [|c pre IH]; [by destruct s|].
  by rewrite append_cons.
Qed.

Lemma drop_chars_split (k : nat) (s : string) :
  k ≤ String.length s → ∃ pre, s = pre +:+ drop_chars k s.
Proof.
  revert s. induction k as [|k IH]; intros s Hk.
  - by exists EmptyString.
  - destruct s as [|c s]; simpl in *; [lia|].
    destruct (IH s) as [pre Hpre]; [lia|].
    exists (String c pre). rewrite append_cons. by rewrite <- Hpre.
Qed.

(** [endswith] is the suffix test. *)
Lemma endswith_spec (s suffix : string) :
  endswith s suffix = true ↔ ∃ stem, s = stem +:+ suffix.
Proof.
  unfold endswith. rewrite andb_true_iff, Nat.leb_le, String.eqb_eq. split.
  - intros [Hle Hdrop].
    destruct (drop_chars_split (String.length s - String.length suffix) s) as [pre Hpre];
      [lia|].
    exists pre. by rewrite <- Hdrop.
  - intros [stem ->]. rewrite length_append. split; [lia|].
    replace (String.length stem + String.length suffix - String.length suffix)
      with (String.length stem) by lia.
    apply drop_chars_append.
Qed.

(** [contains] is the substring test. *)
Lemma contains_spec (needle hay : string) :
  contains needle hay = true ↔ ∃ pre post, hay = pre +:+ needle +:+ post.
Proof.
  induction hay as [|c hay IH]; simpl; rewrite orb_true_iff, startswith_spec.
  - split.
    + intros [[rest Hr]|?]; [|done]. by exists EmptyString, rest.
    + intros (pre & post & Heq). left. destruct pre; [|done]. by exists post.
  - rewrite IH. split.
    + intros [[rest Hr]|(pre & post & Heq)].
      * by exists EmptyString, rest.
      * exists (String c pre), post. rewrite append_cons. by rewrite Heq.
    + intros (pre & post & Heq). destruct pre as [|c' pre].
      * left. by exists post.
      * right. exists pre, post. rewrite append_cons in Heq. congruence.
Qed.

(** Two names with different endings of one length differ. *)
Lemma same_ending (stem stem' s t : string) :
  String.length s = String.length t → stem +:+ s = stem' +:+ t → s = t.
Proof.
  intros Hlen Heq.
  assert (String.length stem = String.length stem') as Hst.
  { apply (f_equal String.length) in Heq. rewrite !length_append in Heq. lia. }
  revert stem' Hst Heq. induction stem as [|c stem IH]; intros [|c' stem'] Hst Heq;
    simpl in Hst; try done.
  rewrite !append_cons in Heq. injection Heq as _ Heq. eapply IH; [|done]. lia.
Qed.
End py_facts.

(** ** [unique]: distinct values in order of first appearance *)
Section unique_facts.
Context {A : Type} `{EqDecision A}.
Implicit Types (seen l : list A) (x : A).

Lemma unique_from_ext seen seen' l :
  (∀ x, x ∈ seen ↔ x ∈ seen') → unique_from seen l = unique_from seen' l.
Proof.
  revert seen seen'. induction l as [|v l IH]; intros seen seen' Hext; simpl; [done|].
  destruct (decide (v ∈ seen)) as [Hin|Hout], (decide (v ∈ seen')) as [Hin'|Hout'];
    try (exfalso; naive_solver).
  - by apply IH.
  - f_equal. apply IH. intros x. rewrite !elem_of_cons. naive_solver.
Qed.

Lemma elem_of_unique_from seen l x :
  x ∈ unique_from seen l ↔ x ∈ l ∧ x ∉ seen.
Proof.
  revert seen. induction l as [|v l IH]; intros seen; simpl.
  - rewrite elem_of_nil. naive_solver.
  - destruct (decide (v ∈ seen)) as [Hin|Hout].
    + rewrite IH, elem_of_cons. naive_solver.
    + rewrite !elem_of_cons, IH, elem_of_cons.
      destruct (decide (x = v)); naive_solver.
Qed.

Lemma NoDup_unique_from seen l : NoDup (unique_from seen l).
Proof.
  revert seen. induction l as [|v l IH]; intros seen; simpl; [constructor|].
  destruct (decide (v ∈ seen)); [done|].
  constructor; [|done].
  rewrite elem_of_unique_from, elem_of_cons. naive_solver.
Qed.


Lemma unique_from_sublist seen l : unique_from seen l `sublist_of` l.
Proof.
  revert seen. induction l as [|v l IH]; intros seen; simpl; [done|].
  destruct (decide (v ∈ seen)); [by apply sublist_cons | by apply sublist_skip].
Qed.

Lemma elem_of_unique l x : x ∈ unique l ↔ x ∈ l.
Proof. unfold unique. rewrite elem_of_unique_from, elem_of_nil. naive_solver. Qed.

Lemma NoDup_unique l : NoDup (unique l).
Proof. apply NoDup_unique_from. Qed.

Lemma unique_length l : length (unique l) ≤ length l.
Proof. apply sublist_length, unique_from_sublist. Qed.

(** Nothing is dropped exactly when the values were distinct already. *)
Lemma unique_length_NoDup l : length (unique l) = length l ↔ NoDup l.
Proof.
  split.
  - intros Hlen.
    assert (unique l ≡ₚ l) as <-; [|apply NoDup_unique].
    apply submseteq_length_Permutation; [|lia].
    apply sublist_submseteq, unique_from_sublist.
  - intros Hnd. apply Permutation_length, NoDup_Permutation;
      [apply NoDup_unique | done | apply elem_of_unique].
Qed.

Lemma unique_from_NoDup seen l :
  NoDup l → (∀ x, x ∈ l → x ∉ seen) → unique_from seen l = l.
Proof.
  intros Hnd. revert seen.
  induction Hnd as [|x l Hx Hnd IH]; intros seen Hseen; [done|]. simpl.
  rewrite decide_False by (apply Hseen; left).
  f_equal. apply IH. intros y Hy. rewrite elem_of_cons.
  intros [->|Hin]; [done|]. by apply (Hseen y); [right|].
Qed.

Lemma unique_NoDup l : NoDup l → unique l = l.
Proof. intros Hnd. apply unique_from_NoDup; [done|]. intros x _. apply not_elem_of_nil. Qed.


End unique_facts.

(** ** The category detector *)
Section detector_facts.
Context `{PyStr}.
Implicit Types (data : DataFrame) (c : column).

Lemma filter_none {A} (P : A → Prop) `{∀ x, Decision (P x)} (l : list A) :
  Forall (λ x, ¬ P x) l → filter P l = [].
Proof.
  induction 1 as [|x l Hx _ IH]; [done|].
  by rewrite filter_cons, decide_False.
Qed.

Lemma filter_nil_none {A} (P : A → Prop) `{∀ x, Decision (P x)} (l : list A) :
  filter P l = [] → Forall (λ x, ¬ P x) l.
Proof.
  intros Hnil. apply Forall_forall. intros x Hx HP.
  by eapply filter_nil_not_elem_of.
Qed.

Lemma first_such {A} (P : A → Prop) `{∀ x, Decision (P x)} (l : list A) :
  Exists P l → ∃ pre x post, l = pre ++ x :: post ∧ P x ∧ Forall (λ y, ¬ P y) pre.
Proof.
  induction l as [|y l IH]; intros Hex; [by apply Exists_nil in Hex|].
  destruct (decide (P y)) as [Hy|Hy].
  - by exists [], y, l.
  - apply Exists_cons in Hex as [?|Hex]; [done|].
    destruct (IH Hex) as (pre & x & post & -> & Hx & Hpre).
    exists (y :: pre), x, post. split_and!; [done..|]. by constructor.
Qed.

(** [data[lbl]] is a column when one column carries the label. *)
Lemma getitem_series data pre c post :
  columns data = pre ++ c :: post →
  Forall (λ c', label c' ≠ label c) pre →
  Forall (λ c', label c' ≠ label c) post →
  getitem data (label c) = Return (series c).
Proof.
  intros Hcols Hpre Hpost. unfold getitem.
  by rewrite Hcols, filter_app, filter_cons, decide_True, !filter_none.
Qed.


Lemma getitem_distinct data c :
  NoDup (labels data) → c ∈ columns data → getitem data (label c) = Return (series c).
Proof.
  intros Hnd (pre & post & Hcols)%list_elem_of_split.
  unfold labels in Hnd. rewrite Hcols, fmap_app, fmap_cons in Hnd.
  apply NoDup_app in Hnd as (_ & Hpre & Hpost). apply NoDup_cons in Hpost as [Hpost _].
  apply (getitem_series data pre c post Hcols); apply Forall_forall; intros c' Hc' Heq.
  - apply (Hpre (label c')); [by apply list_elem_of_fmap_2|]. rewrite Heq. left.
  - apply Hpost. rewrite <- Heq. by apply list_elem_of_fmap_2.
Qed.

(** Whatever [data[lbl].unique()] returns is [unique] of the one column of
    that label. *)
Lemma column_unique_returns data lbl cats :
  column_unique data lbl = Return cats →
  ∃ c, filter (λ c, label c = lbl) (columns data) = [c] ∧
       cats = ndarray (unique (values c)).
Proof.
  unfold column_unique, getitem.
  destruct (filter (λ c, label c = lbl) (columns data)) as [|c [|c' rest]] eqn:Hf;
    [done| |done].
  intros [= <-]. by exists c.
Qed.

Lemma named_category_mem data :
  "category" ∈ str_lower <$> labels data ↔ Exists named_category (columns data).
Proof.
  unfold labels. rewrite <- list_fmap_compose, list_elem_of_fmap, Exists_exists.
  unfold named_category. naive_solver.
Qed.

(** Step 1 of the detector goes to the first column labelled "category". *)
Lemma detect_named_branch data pre c post :
  columns data = pre ++ c :: post →
  named_category c →
  Forall (λ c', ¬ named_category c') pre →
  detect_categories data = column_unique data (label c).
Proof.
  intros Hcols Hc Hpre. unfold detect_categories.
  rewrite bool_decide_eq_false_2 by (rewrite Hcols; by destruct pre).
  rewrite bool_decide_eq_true_2; last first.
  { apply named_category_mem. rewrite Hcols, Exists_app, Exists_cons. auto. }
  unfold labels. rewrite Hcols, fmap_app, filter_app, fmap_cons, filter_cons.
  rewrite filter_none, decide_True by
    (done || (rewrite Forall_fmap; eapply Forall_impl; [exact Hpre|]; done)).
  done.
Qed.

(** Step 2 goes to the first text-typed column. *)
Lemma detect_text_branch data pre c post :
  Forall (λ c', ¬ named_category c') (columns data) →
  columns data = pre ++ c :: post →
  text_typed c →
  Forall (λ c', ¬ text_typed c') pre →
  detect_categories data = column_unique data (label c).
Proof.
  intros Hnamed Hcols Hc Hpre. unfold detect_categories.
  rewrite bool_decide_eq_false_2 by (rewrite Hcols; by destruct pre).
  rewrite bool_decide_eq_false_2; last first.
  { rewrite named_category_mem. by apply Forall_Exists_neg. }
  unfold select_dtypes.
  rewrite Hcols, filter_app, filter_cons, filter_none, decide_True.
  - done.
  - rewrite Hc. left.
  - eapply Forall_impl; [exact Hpre|]. unfold text_typed.
    intros c' Hc' Hin. apply Hc'. by apply list_elem_of_singleton in Hin.
Qed.

(** Step 3 of the detector. *)
Lemma detect_fallback data :
  columns data ≠ [] →
  Forall (λ c, ¬ named_category c) (columns data) →
  Forall (λ c, ¬ text_typed c) (columns data) →
  detect_categories data = Return (pylist fallback_categories).
Proof.
  intros Hcols Hnamed Htext. unfold detect_categories.
  rewrite bool_decide_eq_false_2 by done.
  rewrite bool_decide_eq_false_2; last first.
  { rewrite named_category_mem. by apply Forall_Exists_neg. }
  unfold select_dtypes. rewrite filter_none; [done|].
  eapply Forall_impl; [exact Htext|]. unfold text_typed.
  intros c Hc Hin. apply Hc. by apply list_elem_of_singleton in Hin.
Qed.

Lemma detect_no_columns data :
  columns data = [] → detect_categories data = Raise "AttributeError".
Proof. intros Hcols. unfold detect_categories. by rewrite bool_decide_eq_true_2. Qed.

(** The branch taken, for any frame. *)
Lemma detect_branch data :
  columns data = [] ∨
  (∃ c, c ∈ columns data ∧ (named_category c ∨ text_typed c) ∧
        detect_categories data = column_unique data (label c)) ∨
  (columns data ≠ [] ∧
   Forall (λ c, ¬ named_category c) (columns data) ∧
   Forall (λ c, ¬ text_typed c) (columns data)).
Proof.
  destruct (decide (columns data = [])) as [?|Hcols]; [by left|]. right.
  destruct (decide (Exists named_category (columns data))) as [Hn|Hn].
  { left. destruct (first_such _ _ Hn) as (pre & c & post & Hsplit & Hc & Hpre).
    exists c. split_and!; [rewrite Hsplit, elem_of_app, elem_of_cons; auto | by left |].
    by eapply detect_named_branch. }
  apply not_Exists_Forall in Hn; [|apply _].
  destruct (decide (Exists text_typed (columns data))) as [Ht|Ht].
  { left. destruct (first_such _ _ Ht) as (pre & c & post & Hsplit & Hc & Hpre).
    exists c. split_and!; [rewrite Hsplit, elem_of_app, elem_of_cons; auto | by right |].
    by eapply detect_text_branch. }
  right. split_and!; [done..|]. by apply Forall_Exists_neg.
Qed.

(** What the detector returns, when it returns. *)
Lemma detect_returns data cats :
  detect_categories data = Return cats →
  (∃ c, c ∈ columns data ∧ (named_category c ∨ text_typed c) ∧
        cats = ndarray (unique (values c))) ∨
  (cats = pylist fallback_categories ∧ columns data ≠ [] ∧
   Forall (λ c, ¬ named_category c) (columns data) ∧
   Forall (λ c, ¬ text_typed c) (columns data)).
Proof.
  intros Hrun.
  destruct (detect_branch data) as [Hnil|[(c & Hc & Hkind & Hbranch)|(Hcols & Hn & Ht)]].
  - by rewrite (detect_no_columns data Hnil) in Hrun.
  - left. rewrite Hbranch in Hrun.
    apply column_unique_returns in Hrun as (c' & Hone & ->).
    assert (c ∈ filter (λ c', label c' = label c) (columns data)) as Hin
      by (by apply list_elem_of_filter).
    rewrite Hone in Hin. apply list_elem_of_singleton in Hin as ->. by exists c'.
  - right. rewrite detect_fallback in Hrun by done. by injection Hrun as <-.
Qed.

End detector_facts.

(** C2, as worded, fails: a frame whose only columns are numeric, one of
    them labelled "category", has no text-typed column and yet the detector
    answers the distinct codes of that column, not the built-in list. *)
Lemma C2_numeric_category_column :
  ¬ @fallback_iff_no_text_column ascii_runtime coded_categories.
Proof.
  intros [_ Hback].
  assert (@detect_categories ascii_runtime coded_categories =
            Return (ndarray [Int 3; Int 1])) as Hrun by reflexivity.
  rewrite Hback in Hrun; [done|].
  repeat constructor; by intros [=].
Qed.

(** C2 (amended): on a frame with a column, the detector answers the
    built-in list exactly when no column is labelled "category" (in any
    case) and no column is text-typed; a frame with distinct labels and
    without rows that has a text-typed column or a column labelled
    "category" yields the empty category set. *)
Theorem C2_fallback_condition `{PyStr} (data : DataFrame) :
  (columns data ≠ [] →
   (detect_categories data = Return (pylist fallback_categories) ↔
      Forall (λ c, ¬ named_category c) (columns data) ∧
      Forall (λ c, ¬ text_typed c) (columns data))) ∧
  (NoDup (labels data) →
   Forall (λ c, values c = []) (columns data) →
   Exists text_typed (columns data) ∨ Exists named_category (columns data) →
   detect_categories data = Return (ndarray [])).
Proof.
  split.
  - intros Hcols. split; [|intros [? ?]; by apply detect_fallback].
    intros Hback. by apply detect_returns in Hback as [(c & _ & _ & [=])|(_ & _ & ?)].
  - intros Hnd Hrows Hex.
    destruct (detect_branch data) as [Hnil|[(c & Hc & _ & ->)|(_ & Hn & Ht)]].
    + rewrite Hnil in Hex. by destruct Hex as [?%Exists_nil|?%Exists_nil].
    + unfold column_unique. rewrite (getitem_distinct data c Hnd Hc). simpl.
      rewrite Forall_forall in Hrows. by rewrite (Hrows c Hc).
    + by destruct Hex as [?%Forall_Exists_neg|?%Forall_Exists_neg].
Qed.

Lemma C2_fallback_condition_witness :
  @detect_categories ascii_runtime no_rows = Return (ndarray []) ∧
  @detect_categories ascii_runtime big_counts = Return (pylist fallback_categories).
Proof.
  split.
  - apply (@C2_fallback_condition ascii_runtime no_rows).
    + apply (bool_decide_unpack _). by vm_compute.
    + repeat constructor.
    + left. apply Exists_cons_tl, Exists_cons_hd. reflexivity.
  - apply (proj1 (@C2_fallback_condition ascii_runtime big_counts)); [done|].
    split; repeat constructor; by intros [=].
Defined.




(** ** The loader *)
Section loader_facts.
Context `{Tabular}.
Implicit Types (file : UploadedFile).

Lemma load_data_csv file :
  csv_named file →
  load_data file =
    ([called "pd.read_csv"],
     match read_csv file with
     | Return df => Return (Some df)
     | Raise e => Raise e
     end).
Proof.
  intros Hcsv%endswith_spec. unfold load_data. rewrite Hcsv.
  unfold call. by destruct (read_csv file).
Qed.

Lemma load_data_pdf file :
  ¬ csv_named file → pdf_named file → load_data file = process_pdf file.
Proof.
  intros Hcsv Hpdf%endswith_spec. unfold load_data. rewrite Hpdf.
  destruct (Py.endswith (name file) ".csv") eqn:E; [|done].
  by apply endswith_spec in E.
Qed.

Lemma load_data_other file :
  ¬ csv_named file → ¬ pdf_named file → load_data file = unsupported.
Proof.
  intros Hcsv Hpdf. unfold load_data.
  destruct (Py.endswith (name file) ".csv") eqn:E1;
    [by apply endswith_spec in E1|].
  destruct (Py.endswith (name file) ".pdf") eqn:E2;
    [by apply endswith_spec in E2|].
  done.
Qed.

Lemma length_lower (s : string) : String.length (Py.lower s) = String.length s.
Proof. induction s as [|c s IH]; simpl; [done | by rewrite IH]. Qed.

(** A name ending in [ext] does not end in a different [ext'] of the
    same length. *)
Lemma other_ending file stem ext ext' :
  name file = stem +:+ ext →
  String.length ext = String.length ext' →
  ext ≠ ext' →
  ¬ ∃ stem', name file = stem' +:+ ext'.
Proof.
  intros Hname Hlen Hne [stem' Hname']. apply Hne.
  eapply same_ending; [done|]. by rewrite <- Hname, <- Hname'.
Qed.

(** What [process_pdf] does, by what tabula and pandas answer. *)
Lemma process_pdf_tables file ts df :
  read_pdf file = Return ts → ts ≠ [] → pd_concat ts = Return df →
  process_pdf file = ([called "tabula.read_pdf"; called "pd.concat"], Return (Some df)).
Proof.
  intros Hr Hts Hc. unfold process_pdf, call. rewrite Hr. simpl.
  rewrite bool_decide_eq_true_2 by done. by rewrite Hc.
Qed.

Lemma process_pdf_no_tables file :
  read_pdf file = Return [] →
  process_pdf file =
    ([called "tabula.read_pdf"; st_error "No tables found in the PDF."], Return None).
Proof. intros Hr. unfold process_pdf, call. by rewrite Hr. Qed.

Lemma process_pdf_read_raises file e :
  read_pdf file = Raise e →
  process_pdf file =
    ([called "tabula.read_pdf"; st_error ("Error reading PDF: " +:+ e)], Return None).
Proof. intros Hr. unfold process_pdf, call. by rewrite Hr. Qed.

Lemma process_pdf_concat_raises file ts e :
  read_pdf file = Return ts → ts ≠ [] → pd_concat ts = Raise e →
  process_pdf file =
    ([called "tabula.read_pdf"; called "pd.concat";
      st_error ("Error reading PDF: " +:+ e)], Return None).
Proof.
  intros Hr Hts Hc. unfold process_pdf, call. rewrite Hr. simpl.
  rewrite bool_decide_eq_true_2 by done. by rewrite Hc.
Qed.

(** The PDF path starts with the extractor and never reads CSV; its
    dataset is the concatenation of the extractor's tables. *)
Lemma process_pdf_extractor file :
  (∃ rest, (process_pdf file).1 = called "tabula.read_pdf" :: rest) ∧
  ("pd.read_csv" ∉ calls (process_pdf file).1) ∧
  (∀ df, (process_pdf file).2 = Return (Some df) ↔
         ∃ ts, read_pdf file = Return ts ∧ ts ≠ [] ∧ pd_concat ts = Return df).
Proof.
  assert (∀ l : list string, "pd.read_csv" ∈ l → Forall (λ fn, fn ≠ "pd.read_csv") l → False)
    as Hnot.
  { intros l Hin Hall. rewrite Forall_forall in Hall. by apply (Hall _ Hin). }
  destruct (read_pdf file) as [ts|e] eqn:Hr.
  - destruct (decide (ts = [])) as [->|Hts].
    + rewrite (process_pdf_no_tables file Hr). simpl. split_and!; [eauto| |].
      * intros Hin. apply (Hnot _ Hin). by repeat constructor.
      * intros df. split; [done|]. by intros (ts & [= <-] & ? & _).
    + destruct (pd_concat ts) as [df|e] eqn:Hc.
      * rewrite (process_pdf_tables file ts df Hr Hts Hc). simpl. split_and!; [eauto| |].
        -- intros Hin. apply (Hnot _ Hin). by repeat constructor.
        -- intros df'. split.
           ++ intros [= <-]. by exists ts.
           ++ intros (ts' & [= <-] & _ & Hc'). congruence.
      * rewrite (process_pdf_concat_raises file ts e Hr Hts Hc). simpl. split_and!; [eauto| |].
        -- intros Hin. apply (Hnot _ Hin). by repeat constructor.
        -- intros df'. split; [done|]. intros (ts' & [= <-] & _ & Hc'). congruence.
  - rewrite (process_pdf_read_raises file e Hr). simpl. split_and!; [eauto| |].
    + intros Hin. apply (Hnot _ Hin). by repeat constructor.
    + intros df. split; [done|]. by intros (ts & [=] & _).
Qed.

Lemma pdf_not_csv file : pdf_named file → ¬ csv_named file.
Proof. intros [stem Hname]. by eapply other_ending. Qed.
End loader_facts.

(** C5: the loader goes by the ending of the file name.  A name ending in
    ".csv" goes to the CSV parser: [pd.read_csv] is the one call, and its
    answer, or its exception, is the loader's.  A name ending in ".pdf"
    goes to the PDF extractor: the run is that of [process_pdf], it starts
    with the call of [tabula.read_pdf], the CSV parser is not called, and
    the dataset is the concatenation of the tables the extractor found.
    Any other name gets the unsupported-format error, no dataset and no
    call of a parser; so "report.txt". *)
Theorem C5_loader_dispatch `{Tabular} (file : UploadedFile) :
  (csv_named file →
   load_data file =
     ([called "pd.read_csv"],
      match read_csv file with
      | Return df => Return (Some df)
      | Raise e => Raise e
      end)) ∧
  (pdf_named file →
   load_data file = process_pdf file ∧
   (∃ rest, (load_data file).1 = called "tabula.read_pdf" :: rest) ∧
   ("pd.read_csv" ∉ calls (load_data file).1) ∧
   (∀ df, (load_data file).2 = Return (Some df) ↔
          ∃ ts, read_pdf file = Return ts ∧ ts ≠ [] ∧ pd_concat ts = Return df)) ∧
  (¬ csv_named file → ¬ pdf_named file →
   load_data file = unsupported ∧
   errors (load_data file).1 =
     ["Unsupported file format. Please upload a CSV or PDF file."] ∧
   calls (load_data file).1 = [] ∧
   (load_data file).2 = Return None) ∧
  (∀ bytes, load_data {| name := "report.txt"; content := bytes |} = unsupported).
Proof.
  split_and!.
  - apply load_data_csv.
  - intros Hpdf. rewrite (load_data_pdf file (pdf_not_csv file Hpdf) Hpdf).
    split; [done|]. apply process_pdf_extractor.
  - intros Hcsv Hpdf. by rewrite (load_data_other file Hcsv Hpdf).
  - done.
Qed.

(** C7, as worded, fails: the extractor answers two tables and does not
    raise, the concatenation raises, and the PDF path reports the error
    and produces no dataset. *)
Lemma C7_concat_raises : ¬ @pdf_fails_iff_extractor_fails clashing_tables statement_pdf.
Proof.
  intros [Hfail _].
  assert ((@process_pdf clashing_tables statement_pdf).2 = Return None) as Hrun.
  { by vm_compute. }
  destruct (Hfail Hrun) as [Hnone|[e Hraise]]; done.
Qed.

(** C7 (amended): the PDF path calls the extractor once and never raises;
    it produces the concatenation of the tables when the extractor answers
    at least one table and the concatenation succeeds, with no error
    reported; it produces no dataset and reports one error exactly when the
    extractor answers no table, or the extractor or the concatenation
    raises. *)
Theorem C7_pdf_path `{Tabular} (file : UploadedFile) :
  (∀ df, (process_pdf file).2 = Return (Some df) ↔
         ∃ ts, read_pdf file = Return ts ∧ ts ≠ [] ∧ pd_concat ts = Return df) ∧
  ((process_pdf file).2 = Return None ↔
     read_pdf file = Return [] ∨ (∃ e, read_pdf file = Raise e) ∨
     (∃ ts e, read_pdf file = Return ts ∧ pd_concat ts = Raise e)) ∧
  (∀ df, (process_pdf file).2 = Return (Some df) → errors (process_pdf file).1 = []) ∧
  ((process_pdf file).2 = Return None → ∃ msg, errors (process_pdf file).1 = [msg]) ∧
  (∃ r, (process_pdf file).2 = Return r) ∧
  filter (λ fn, fn = "tabula.read_pdf") (calls (process_pdf file).1) = ["tabula.read_pdf"].
Proof.
  destruct (read_pdf file) as [ts|e] eqn:Hr.
  - destruct (decide (ts = [])) as [->|Hts].
    + rewrite (process_pdf_no_tables file Hr). simpl. split_and!; try done.
      * intros df. split; [done|]. by intros (ts & [= <-] & ? & _).
      * split; [by left|done].
      * eauto.
      * eauto.
    + destruct (pd_concat ts) as [df|e] eqn:Hc.
      * rewrite (process_pdf_tables file ts df Hr Hts Hc). simpl. split_and!; try done.
        -- intros df'. split.
           ++ intros [= <-]. by exists ts.
           ++ intros (ts' & [= <-] & _ & Hc'). congruence.
        -- split; [done|]. intros [[= ->]|[[e [=]]|(ts' & e & [= <-] & Hc')]];
             [done | congruence].
        -- eauto.
      * rewrite (process_pdf_concat_raises file ts e Hr Hts Hc). simpl. split_and!; try done.
        -- intros df'. split; [done|]. intros (ts' & [= <-] & _ & Hc'). congruence.
        -- split; [|done]. intros _. right. right. by exists ts, e.
        -- eauto.
        -- eauto.
  - rewrite (process_pdf_read_raises file e Hr). simpl. split_and!; try done.
    + intros df. split; [done|]. by intros (ts & [=] & _).
    + split; [|done]. intros _. right. left. by exists e.
    + eauto.
    + eauto.
Qed.

Lemma C7_pdf_path_witness :
  @process_pdf single_table statement_pdf =
    ([called "tabula.read_pdf"; called "pd.concat"], Return (Some one_table)) ∧
  errors (@process_pdf single_table statement_pdf).1 = [].
Proof.
  split; [reflexivity|].
  apply (proj1 (proj2 (proj2 (@C7_pdf_path single_table statement_pdf))) one_table).
  reflexivity.
Defined.

Lemma C5_loader_dispatch_witness :
  @load_data single_table {| name := "bank.csv"; content := "a,b" |} =
    ([called "pd.read_csv"], Return (Some one_table)) ∧
  @load_data single_table statement_pdf = @process_pdf single_table statement_pdf.
Proof.
  split.
  - apply (proj1 (@C5_loader_dispatch single_table {| name := "bank.csv"; content := "a,b" |})).
    by exists "bank".
  - apply (proj1 (proj2 (@C5_loader_dispatch single_table statement_pdf))).
    by exists "statement".
Defined.

(** C10: the test of the ending is case-sensitive: a name whose ending is
    ".csv" or ".pdf" in some other letter case (".CSV", ".Pdf", ...) takes
    the unsupported-format branch and yields no dataset. *)
Theorem C10_case_sensitive_extension `{Tabular} (file : UploadedFile) (stem ext : string) :
  name file = stem +:+ ext →
  Py.lower ext ∈ [".csv"; ".pdf"] →
  ext ∉ [".csv"; ".pdf"] →
  load_data file = unsupported ∧
  (load_data file).2 = Return None ∧
  calls (load_data file).1 = [].
Proof.
  intros Hname Hlow Hext.
  assert (String.length ext = 4) as Hlen.
  { rewrite <- length_lower.
    apply elem_of_cons in Hlow as [->| ->%list_elem_of_singleton]; done. }
  assert (load_data file = unsupported) as ->; [|done].
  apply load_data_other; eapply other_ending; try done.
  - intros ->. apply Hext. left.
  - intros ->. apply Hext. right. left.
Qed.

Lemma C10_case_sensitive_extension_witness :
  @load_data single_table {| name := "BANK.CSV"; content := "a,b" |} = unsupported ∧
  @load_data single_table {| name := "scan.Pdf"; content := "%PDF" |} = unsupported.
Proof.
  split.
  - refine (proj1 (@C10_case_sensitive_extension single_table
               {| name := "BANK.CSV"; content := "a,b" |} "BANK" ".CSV" _ _ _)).
    + reflexivity.
    + left.
    + intros Hin. by repeat (apply elem_of_cons in Hin as [?|Hin]; [done|]);
        apply elem_of_nil in Hin.
  - refine (proj1 (@C10_case_sensitive_extension single_table
               {| name := "scan.Pdf"; content := "%PDF" |} "scan" ".Pdf" _ _ _)).
    + reflexivity.
    + right. left.
    + intros Hin. by repeat (apply elem_of_cons in Hin as [?|Hin]; [done|]);
        apply elem_of_nil in Hin.
Defined.

(** ** The budget allocator *)

Section dict_facts.
Implicit Types (d : dict) (k c : string) (v : Qc).

Lemma dict_keys_set k v d :
  dict_keys (dict_set k v d) =
  if decide (k ∈ dict_keys d) then dict_keys d else dict_keys d ++ [k].
Proof.
  unfold dict_keys. induction d as [|[k' v'] d IH]; [done|].
  cbn [dict_set]. destruct (decide (k = k')) as [->|Hne]; rewrite !fmap_cons; cbn [fst].
  - by rewrite decide_True by left.
  - rewrite IH. destruct (decide (k ∈ d.*1)) as [Hin|Hout].
    + by rewrite decide_True by (by right).
    + rewrite decide_False; [done|]. rewrite elem_of_cons. naive_solver.
Qed.

Lemma dict_get_set k c v d :
  dict_get c (dict_set k v d) = if decide (c = k) then Some v else dict_get c d.
Proof.
  induction d as [|[k' v'] d IH]; simpl.
  - by destruct (decide (c = k)).
  - destruct (decide (k = k')) as [->|Hne]; simpl.
    + by destruct (decide (c = k')).
    + rewrite IH. destruct (decide (c = k')) as [->|?]; [|done].
      by rewrite decide_False.
Qed.

Lemma dict_values_set k v d :
  Forall (eq v) (dict_values d) → Forall (eq v) (dict_values (dict_set k v d)).
Proof.
  unfold dict_values. induction d as [|[k' v'] d IH].
  - by repeat constructor.
  - cbn [dict_set]. rewrite fmap_cons. intros [? ?]%Forall_cons.
    destruct (decide (k = k')); rewrite fmap_cons; cbn [snd].
    + by constructor.
    + constructor; [done | by apply IH].
Qed.

Lemma dict_keys_assign v cats d :
  dict_keys (assign_each v cats d) =
  dict_keys d ++ unique_from (dict_keys d) cats.
Proof.
  unfold assign_each. revert d. induction cats as [|c cats IH]; intros d; simpl.
  - by rewrite app_nil_r.
  - rewrite IH, dict_keys_set. destruct (decide (c ∈ dict_keys d)); [done|].
    rewrite <- app_assoc. simpl. do 2 f_equal. apply unique_from_ext.
    intros x. rewrite elem_of_app, !elem_of_cons, elem_of_nil. naive_solver.
Qed.

Lemma dict_get_assign v cats d c :
  dict_get c (assign_each v cats d) =
  if decide (c ∈ cats) then Some v else dict_get c d.
Proof.
  unfold assign_each. revert d. induction cats as [|c' cats IH]; intros d; cbn [foldl].
  - rewrite decide_False; [done | apply not_elem_of_nil].
  - rewrite IH, dict_get_set. destruct (decide (c ∈ cats)) as [Hin|Hout].
    + rewrite decide_True by (by right). done.
    + destruct (decide (c = c')) as [->|Hne].
      * rewrite decide_True by left. done.
      * rewrite decide_False; [done|]. rewrite elem_of_cons. naive_solver.
Qed.

Lemma dict_values_assign v cats d :
  Forall (eq v) (dict_values d) → Forall (eq v) (dict_values (assign_each v cats d)).
Proof.
  unfold assign_each. revert d. induction cats as [|c cats IH]; intros d Hd; simpl;
    [done|]. by apply IH, dict_values_set.
Qed.

Lemma dict_length_keys d : length d = length (dict_keys d).
Proof. unfold dict_keys. by rewrite length_fmap. Qed.

Lemma dict_length_values d : length (dict_values d) = length d.
Proof. unfold dict_values. by rewrite length_fmap. Qed.

(** The size of the dict is the number of distinct labels assigned. *)
Lemma assign_each_size v cats : length (assign_each v cats []) = length (unique cats).
Proof. by rewrite dict_length_keys, dict_keys_assign. Qed.

Lemma assign_each_keys v cats : dict_keys (assign_each v cats []) = unique cats.
Proof. by rewrite dict_keys_assign. Qed.
End dict_facts.

Section allocator_facts.
Open Scope Qc_scope.

Lemma Qc_of_Z_nonzero (z : Z) : z ≠ 0%Z → Qc_of_Z z ≠ 0.
Proof. intros Hz Heq. apply Hz. apply Z2Qc_inj. by rewrite Heq, Z2Qc_inj_0. Qed.

(** Splitting what remains, [k/n], among the [k] labels left gives [1/n]. *)
Lemma share_of_rest (n k : Z) :
  n ≠ 0%Z → k ≠ 0%Z → Qc_of_Z k / Qc_of_Z n / Qc_of_Z k = 1 / Qc_of_Z n.
Proof. intros Hn Hk. field. split; by apply Qc_of_Z_nonzero. Qed.

Lemma rest_after_share (n k : Z) :
  n ≠ 0%Z → Qc_of_Z k / Qc_of_Z n - 1 / Qc_of_Z n = Qc_of_Z (k - 1) / Qc_of_Z n.
Proof.
  intros Hn. rewrite Z2Qc_inj_sub, Z2Qc_inj_1. field. by apply Qc_of_Z_nonzero.
Qed.

Lemma total_const (v : Qc) (vs : list Qc) :
  Forall (eq v) vs → total vs = Qc_of_Z (Z.of_nat (length vs)) * v.
Proof.
  induction 1 as [|x vs <- _ IH].
  - change (0 = Qc_of_Z 0 * v). rewrite Z2Qc_inj_0. ring.
  - cbn [length]. rewrite Nat2Z.inj_succ. unfold Z.succ.
    rewrite Z2Qc_inj_add, Z2Qc_inj_1. change (total (v :: vs)) with (v + total vs).
    rewrite IH. ring.
Qed.

Lemma shares_times_n (n k : Z) :
  (0 < n)%Z → Qc_of_Z k * (1 / Qc_of_Z n) * Qc_of_Z n = Qc_of_Z k.
Proof. intros Hn. field. apply Qc_of_Z_nonzero. lia. Qed.

Lemma Qc_of_Z_pos (n : Z) : (0 < n)%Z → 0 < Qc_of_Z n.
Proof. intros Hn. rewrite <- Z2Qc_inj_0. by apply Z2Qc_inj_lt in Hn. Qed.

Lemma shares_lt_one (n k : Z) :
  (0 < n)%Z → Qc_of_Z k * (1 / Qc_of_Z n) < 1 ↔ (k < n)%Z.
Proof.
  intros Hn.
  rewrite (Qcmult_lt_mono_pos_r _ _ (Qc_of_Z n) (Qc_of_Z_pos n Hn)).
  rewrite shares_times_n, Qcmult_1_l by done. symmetry. apply Z2Qc_inj_lt.
Qed.

Lemma shares_eq_one (n k : Z) :
  (0 < n)%Z → Qc_of_Z k * (1 / Qc_of_Z n) = 1 ↔ k = n.
Proof.
  intros Hn. split.
  - intros Heq. apply Z2Qc_inj.
    rewrite <- (shares_times_n n k Hn), Heq. ring.
  - intros ->. field. apply Qc_of_Z_nonzero. lia.
Qed.

(** The loop invariant: before index [i], [remaining = (n - i)/n]; every
    label met is then assigned [1/n], and no divisor is zero. *)
Lemma alloc_loop_spec (n i : Z) (cats : list string) (s : alloc_state) :
  (0 ≤ i)%Z →
  (i + Z.of_nat (length cats) = n)%Z →
  remaining s = Qc_of_Z (n - i) / Qc_of_Z n →
  ∃ s', alloc_loop n i cats s = Return s' ∧
        allocation s' = assign_each (1 / Qc_of_Z n) cats (allocation s) ∧
        divisions s' = (divisions s + pred (length cats))%nat.
Proof.
  revert i s. induction cats as [|c rest IH]; intros i s Hi Hn Hrem.
  - exists s. split_and!; [done..|]. simpl. lia.
  - cbn [length] in Hn. cbn [alloc_loop]. unfold alloc_step.
    destruct (Z.eqb_spec i (n - 1)) as [Hlast|Hmore].
    + assert (rest = []) as -> by (apply nil_length_inv; lia).
      eexists. split_and!; [reflexivity|..]; simpl; [|lia].
      rewrite Hrem. replace (n - i)%Z with 1%Z by lia. by rewrite Z2Qc_inj_1.
    + unfold truediv. destruct (Z.eqb_spec (n - i) 0) as [Hz|Hnz]; [lia|].
      cbn [mbind outcome_bind].
      edestruct (IH (i + 1)%Z) as (s' & Hrun & Halloc & Hdiv); cycle 3.
      * rewrite Hrun. exists s'. split_and!; [done|..].
        -- rewrite Halloc. cbn [allocation assign_each foldl].
           rewrite Hrem, share_of_rest by lia. done.
        -- rewrite Hdiv. cbn [divisions length]. destruct rest; simpl in *; lia.
      * lia.
      * lia.
      * cbn [remaining]. rewrite Hrem, share_of_rest, rest_after_share by lia.
        do 2 f_equal. lia.
Qed.

(** The allocation block in closed form. *)
Lemma budget_allocation_closed (l : list string) :
  l ≠ [] →
  budget_allocation l =
    Return (Some (assign_each (1 / Qc_of_Z (Z.of_nat (length l))) l []),
            pred (length l)).
Proof.
  intros Hne. unfold budget_allocation.
  destruct (Z.ltb_spec 0 (Z.of_nat (length l))) as [Hpos|Hzero].
  - edestruct (alloc_loop_spec (Z.of_nat (length l)) 0 l) as (s' & -> & Halloc & Hdiv);
      [done | lia | |].
    + cbn [remaining]. rewrite Z.sub_0_r. field. apply Qc_of_Z_nonzero. lia.
    + cbn [mbind outcome_bind]. by rewrite Halloc, Hdiv.
  - destruct l; [done | simpl in Hzero; lia].
Qed.

Lemma assign_each_total (n : nat) (l : list string) :
  total (dict_values (assign_each (1 / Qc_of_Z (Z.of_nat n)) l [])) =
  Qc_of_Z (Z.of_nat (length (unique l))) * (1 / Qc_of_Z (Z.of_nat n)).
Proof.
  rewrite (total_const (1 / Qc_of_Z (Z.of_nat n))).
  - by rewrite dict_length_values, assign_each_size.
  - apply dict_values_assign. constructor.
Qed.
End allocator_facts.

(** C1, as worded, fails on the empty selection: the guard
    [num_categories > 0] skips the block, no map is bound, not even an
    empty one, and no chart is drawn. *)
Lemma C1_empty_selection_no_map : ¬ allocator_returns_a_map [].
Proof. by intros (m & divs & [=] & _). Qed.

(** C1 (amended): for n >= 1 pairwise distinct labels the allocator
    builds, without raising, a map of size n whose keys are the labels in
    order, in which every label maps to exactly 1/n and the values sum
    to 1; for n = 0 the guard skips the block: no map is built, no chart is
    drawn, and no division is performed. *)
Theorem C1_equal_shares (l : list string) :
  NoDup l →
  (l ≠ [] →
   ∃ m, budget_allocation l = Return (Some m, pred (length l)) ∧
        length m = length l ∧
        dict_keys m = l ∧
        (∀ c, c ∈ l → dict_get c m = Some (1 / Qc_of_Z (Z.of_nat (length l)))%Qc) ∧
        (∀ c, c ∉ l → dict_get c m = None) ∧
        total (dict_values m) = 1%Qc) ∧
  budget_allocation [] = Return (None, 0) ∧
  allocation_chart [] = ([], Return ()).
Proof.
  intros Hnd. split; [|done]. intros Hne.
  eexists. split; [by apply budget_allocation_closed|].
  split_and!.
  - by rewrite assign_each_size, unique_NoDup.
  - by rewrite assign_each_keys, unique_NoDup.
  - intros c Hc. by rewrite dict_get_assign, decide_True.
  - intros c Hc. by rewrite dict_get_assign, decide_False.
  - rewrite assign_each_total, unique_NoDup by done.
    apply shares_eq_one; [|done]. destruct l; [done | simpl; lia].
Qed.

Lemma C1_equal_shares_witness :
  ∃ m, budget_allocation ["Savings"; "Investment"; "Shopping"] = Return (Some m, 2) ∧
       length m = 3 ∧
       dict_keys m = ["Savings"; "Investment"; "Shopping"] ∧
       total (dict_values m) = 1%Qc.
Proof.
  destruct (C1_equal_shares ["Savings"; "Investment"; "Shopping"]) as [Hmap _].
  - apply (bool_decide_unpack _). by vm_compute.
  - destruct Hmap as (m & Hrun & Hlen & Hkeys & _ & _ & Hsum); [done|].
    exists m. by split_and!.
Defined.

(** C6: for distinct labels, the share of a label does not depend on its
    place in the selection: under any reordering every label still maps
    to exactly 1/n. *)
Theorem C6_order_independent (l l' : list string) (c : string) :
  NoDup l → l ≡ₚ l' → c ∈ l →
  ∃ m m' d d',
    budget_allocation l = Return (Some m, d) ∧
    budget_allocation l' = Return (Some m', d') ∧
    dict_get c m = Some (1 / Qc_of_Z (Z.of_nat (length l)))%Qc ∧
    dict_get c m' = dict_get c m.
Proof.
  intros Hnd Hperm Hc.
  assert (l ≠ []) as Hne by (intros ->; by apply elem_of_nil in Hc).
  assert (l' ≠ []) as Hne'.
  { intros ->. by apply Permutation_nil_r in Hperm. }
  do 4 eexists. split_and!; [by apply budget_allocation_closed..| |].
  - by rewrite dict_get_assign, decide_True.
  - rewrite !dict_get_assign, <- (Permutation_length Hperm).
    rewrite !decide_True; [done..|]. by rewrite <- Hperm.
Qed.

Lemma C6_order_independent_witness :
  ∃ m m' d d',
    budget_allocation ["Rent"; "Food"; "Fun"] = Return (Some m, d) ∧
    budget_allocation ["Fun"; "Rent"; "Food"] = Return (Some m', d') ∧
    dict_get "Food" m = Some (1 / Qc_of_Z 3)%Qc ∧
    dict_get "Food" m' = dict_get "Food" m.
Proof.
  apply (C6_order_independent ["Rent"; "Food"; "Fun"] ["Fun"; "Rent"; "Food"] "Food").
  - apply (bool_decide_unpack _). by vm_compute.
  - change ["Fun"; "Rent"; "Food"] with (["Fun"] ++ ["Rent"; "Food"]).
    change ["Rent"; "Food"; "Fun"] with (["Rent"; "Food"] ++ ["Fun"]).
    apply Permutation_app_comm.
  - right. left.
Defined.

(** C9: with a repeated label a later assignment overwrites an earlier
    one: the map has fewer entries than the selection is long and its
    values sum to less than 1 (the selection A, A yields A: 1/2); the size
    and the sum are n and 1 exactly when the labels are pairwise distinct. *)
Theorem C9_repeated_labels (l : list string) :
  l ≠ [] →
  ∃ m, budget_allocation l = Return (Some m, pred (length l)) ∧
       (¬ NoDup l → length m < length l ∧ (total (dict_values m) < 1)%Qc) ∧
       (length m = length l ↔ NoDup l) ∧
       (total (dict_values m) = 1%Qc ↔ NoDup l) ∧
       budget_allocation ["A"; "A"] = Return (Some [("A", (1 / Qc_of_Z 2)%Qc)], 1).
Proof.
  intros Hne.
  assert (0 < Z.of_nat (length l))%Z as Hpos by (destruct l; [done | simpl; lia]).
  eexists. split; [by apply budget_allocation_closed|].
  rewrite assign_each_size, assign_each_total.
  pose proof (unique_length l) as Hle.
  pose proof (unique_length_NoDup l) as Hiff.
  split_and!.
  - intros Hdup.
    assert (length (unique l) < length l) as Hlt.
    { destruct (decide (length (unique l) = length l)) as [Heq|?]; [|lia].
      by apply Hiff in Heq. }
    split; [done|]. apply shares_lt_one; [done|]. lia.
  - done.
  - rewrite shares_eq_one by done. rewrite <- Hiff. split; [|by intros ->].
    apply Nat2Z.inj.
  - by rewrite budget_allocation_closed.
Qed.

Lemma C9_repeated_labels_witness :
  ∃ m, budget_allocation ["Bills"; "Savings"; "Bills"] = Return (Some m, 2) ∧
       length m < 3 ∧ (total (dict_values m) < 1)%Qc.
Proof.
  destruct (C9_repeated_labels ["Bills"; "Savings"; "Bills"]) as (m & Hrun & Hdup & _);
    [done|].
  exists m. split; [done|]. apply Hdup.
  intros Hnd. apply NoDup_cons in Hnd as [Hnot _]. apply Hnot. right. left.
Defined.

(** ** The recommendations *)

Section recommendation_facts.
Context `{PyStr}.

Lemma round_half_even_nearest (num den : Z) :
  (0 < den)%Z →
  (Z.abs (2 * (Py.round_half_even num den * den - num)) ≤ den)%Z.
Proof.
  intros Hden. unfold Py.round_half_even.
  pose proof (Z.div_mod num den) as Hdm.
  pose proof (Z.mod_pos_bound num den Hden) as Hb.
  destruct (Z.compare_spec (2 * (num mod den)) den); [destruct (Z.even _)|..]; nia.
Qed.

(** The reduced fraction that stands for [g / 30]. *)
Lemma daily_quotient (g : Z) :
  (Qnum (this (Qc_of_Z g / Qc_of_Z 30)%Qc) * 30 =
   g * Zpos (Qden (this (Qc_of_Z g / Qc_of_Z 30)%Qc)))%Z.
Proof.
  set (q := this (Qc_of_Z g / Qc_of_Z 30)%Qc).
  assert (q == inject_Z g / inject_Z 30)%Q as Hq.
  { subst q. unfold Qcdiv, Qcmult, Qcinv, Qc_of_Z, Q2Qc. cbn [this].
    by rewrite !Qred_correct. }
  unfold Qeq in Hq.
  change (Qnum (inject_Z g / inject_Z 30)) with (g * 1)%Z in Hq.
  change (QDen (inject_Z g / inject_Z 30)) with 30%Z in Hq. lia.
Qed.

(** The daily figure: the cents nearest to [100 * g / 30], printed as
    units, a point and two digits. *)
Lemma daily_figure (g : Z) :
  (0 ≤ g)%Z →
  ∃ cents, (Z.abs (30 * cents - 100 * g) ≤ 15)%Z ∧
           Py.format_2f (Qc_of_Z g / Qc_of_Z 30) =
           pretty (cents / 100)%Z +:+ "." +:+ Py.two_digits (cents mod 100)%Z.
Proof.
  intros Hg. unfold Py.format_2f.
  pose proof (daily_quotient g) as Hq.
  set (num := Qnum (this (Qc_of_Z g / Qc_of_Z 30)%Qc)) in *.
  set (den := Zpos (Qden (this (Qc_of_Z g / Qc_of_Z 30)%Qc))) in *.
  assert (0 < den)%Z as Hden by (subst den; lia).
  assert (0 ≤ num)%Z as Hnum by nia.
  rewrite Z.abs_eq by done.
  destruct (Z.ltb_spec num 0) as [?|_]; [lia|].
  pose proof (round_half_even_nearest (100 * num) den Hden) as Hnear.
  exists (Py.round_half_even (100 * num) den). split; [nia | done].
Qed.

Lemma recommend_savings g c :
  keyword_in "saving" c → recommend g c = (heading c :: savings_advice g, Return ()).
Proof. intros Hk%contains_spec. unfold recommend. by rewrite Hk. Qed.

Lemma not_keyword k c : ¬ keyword_in k c → Py.contains k (str_lower c) = false.
Proof. intros Hk. apply not_true_is_false. by rewrite contains_spec. Qed.

Lemma recommend_invest g c :
  ¬ keyword_in "saving" c → keyword_in "invest" c →
  recommend g c = (heading c :: investment_advice, Return ()).
Proof.
  intros Hs%not_keyword Hk%contains_spec. unfold recommend. by rewrite Hs, Hk.
Qed.

Lemma recommend_bill g c :
  ¬ keyword_in "saving" c → ¬ keyword_in "invest" c → keyword_in "bill" c →
  recommend g c = (heading c :: bill_advice, Return ()).
Proof.
  intros Hs%not_keyword Hi%not_keyword Hk%contains_spec.
  unfold recommend. by rewrite Hs, Hi, Hk.
Qed.

Lemma recommend_generic g c :
  ¬ keyword_in "saving" c → ¬ keyword_in "invest" c → ¬ keyword_in "bill" c →
  recommend g c = (heading c :: generic_advice c, Return ()).
Proof.
  intros Hs%not_keyword Hi%not_keyword Hb%not_keyword.
  unfold recommend. by rewrite Hs, Hi, Hb.
Qed.

(** On an ASCII label the advice does not depend on the runtime. *)
Lemma recommend_ascii g c :
  Py.isascii c = true → recommend g c = @recommend ascii_runtime g c.
Proof. intros Hc. unfold recommend. by rewrite (str_lower_ascii c Hc). Qed.
End recommendation_facts.

(** C4: the advice for a label goes by the first keyword its lower-case
    form contains, tried in the order "saving", "invest", "bill", else the
    generic advice; exactly one rule fires.  The savings advice prints the
    goal divided by 30 to the nearest cent, with two decimals.  "Savings
    Goal" with goal 900 yields a line mentioning "30.00"; "Groceries" yields
    the generic advice, which mentions the label. *)
Theorem C4_recommendation_dispatch `{PyStr} (savings_goal : Z) (category : string) :
  (keyword_in "saving" category →
   recommend savings_goal category =
     (heading category :: savings_advice savings_goal, Return ())) ∧
  (¬ keyword_in "saving" category → keyword_in "invest" category →
   recommend savings_goal category = (heading category :: investment_advice, Return ())) ∧
  (¬ keyword_in "saving" category → ¬ keyword_in "invest" category →
   keyword_in "bill" category →
   recommend savings_goal category = (heading category :: bill_advice, Return ())) ∧
  (¬ keyword_in "saving" category → ¬ keyword_in "invest" category →
   ¬ keyword_in "bill" category →
   recommend savings_goal category =
     (heading category :: generic_advice category, Return ())) ∧
  ((0 ≤ savings_goal)%Z →
   ∃ cents, (Z.abs (30 * cents - 100 * savings_goal) ≤ 15)%Z ∧
            Py.format_2f (Qc_of_Z savings_goal / Qc_of_Z 30) =
            pretty (cents / 100)%Z +:+ "." +:+ Py.two_digits (cents mod 100)%Z) ∧
  (∃ line, st_write line ∈ (recommend 900 "Savings Goal").1 ∧ mentions "30.00" line) ∧
  (recommend savings_goal "Groceries" =
     ([ heading "Groceries";
        st_write "- Create a budget for Groceries";
        st_write "- Track groceries expenses regularly" ], Return ())) ∧
  (recommend savings_goal "Bills and investments" =
     (heading "Bills and investments" :: investment_advice, Return ())).
Proof.
  split_and!.
  - apply recommend_savings.
  - apply recommend_invest.
  - apply recommend_bill.
  - apply recommend_generic.
  - apply daily_figure.
  - exists "- To reach your $900 monthly goal, save $30.00 daily". split.
    + rewrite recommend_ascii by reflexivity. right. right. left.
    + by exists "- To reach your $900 monthly goal, save $", " daily".
  - by rewrite recommend_ascii.
  - by rewrite recommend_ascii.
Qed.

Lemma C4_recommendation_dispatch_witness :
  @recommend ascii_runtime 1000 "Emergency SAVINGS" =
    ([ heading "Emergency SAVINGS";
       st_write "- Set up automatic transfers to savings account";
       st_write "- To reach your $1000 monthly goal, save $33.33 daily" ], Return ()).
Proof.
  apply (proj1 (@C4_recommendation_dispatch ascii_runtime 1000 "Emergency SAVINGS")).
  by exists "emergency ", "s".
Defined.

(** ** The chart builder *)
Section chart_facts.
Context `{Widgets}.

Lemma selectbox_pick (lbl : string) (options : list string) :
options ≠ [] →
∃ o, o ∈ options ∧ selectbox lbl options = ([st_selectbox lbl options], Return (Some o)).
Proof.
intros Hne. unfold selectbox. destruct (options !! chosen lbl) as [o|] eqn:Hpick.
- exists o. split; [by eapply list_elem_of_lookup_2 | done].
- destruct options as [|o rest]; [done|]. exists o. split; [left | done].
Qed.

Lemma select_dtypes_plottable (data : DataFrame) (lbl : string) :
lbl ∈ select_dtypes [float64; int64] data ↔
∃ c, c ∈ columns data ∧ plottable c ∧ lbl = label c.
Proof.
unfold select_dtypes. rewrite list_elem_of_fmap.
setoid_rewrite list_elem_of_filter. unfold plottable. naive_solver.
Qed.

Lemma plottable_numeric (c : column) : plottable c → numeric c.
Proof.
unfold plottable, numeric. rewrite !elem_of_cons. naive_solver.
Qed.

Lemma no_plottable_columns (data : DataFrame) :
select_dtypes [float64; int64] data = [] ↔ Forall (λ c, ¬ plottable c) (columns data).
Proof.
unfold select_dtypes. split.
- intros Hnil%fmap_nil_inv. by apply filter_nil_none in Hnil.
- intros Hnone. by rewrite filter_none.
Qed.

Lemma chart_type_pick :
∃ t, t ∈ chart_types ∧
     selectbox "Select Chart Type" chart_types =
       ([st_selectbox "Select Chart Type" chart_types], Return (Some t)).
Proof. by apply selectbox_pick. Qed.

Lemma first_label_some (data : DataFrame) :
columns data ≠ [] → ∃ lbl, first_label data = Return lbl.
Proof.
unfold first_label, labels. destruct (columns data) as [|c rest]; [done|]. eauto.
Qed.

(** Without a float64 or int64 column: the error and no chart. *)
Lemma create_dashboard_error (data : DataFrame) :
Forall (λ c, ¬ plottable c) (columns data) →
create_dashboard data =
  ([ st_selectbox "Select Chart Type" chart_types;
     st_error "No numeric columns found for visualization." ], Return ()).
Proof.
intros Hnone%no_plottable_columns. unfold create_dashboard.
destruct chart_type_pick as (t & _ & ->). cbn.
by rewrite bool_decide_eq_true_2.
Qed.

(** With one: select boxes, then the one chart, over such columns. *)
Lemma create_dashboard_chart (data : DataFrame) :
Exists plottable (columns data) →
∃ boxes fig,
  create_dashboard data = (boxes ++ [st_plotly_chart fig], Return ()) ∧
  Forall is_selectbox boxes ∧
  st_selectbox "X-Axis" (select_dtypes [float64; int64] data) ∈ boxes ∧
  st_selectbox "Y-Axis" (select_dtypes [float64; int64] data) ∈ boxes ∧
  (∀ a, a ∈ axes fig →
     ∃ c, c ∈ columns data ∧ plottable c ∧ a = Some (label c)).
Proof.
intros Hsome.
assert (select_dtypes [float64; int64] data ≠ []) as Hne.
{ intros Hnil%no_plottable_columns. by eapply Forall_Exists_neg. }
assert (columns data ≠ []) as Hcols.
{ intros Hnil. rewrite Hnil in Hsome. by apply Exists_nil in Hsome. }
unfold create_dashboard.
destruct chart_type_pick as (t & Ht & ->).
destruct (selectbox_pick "X-Axis" _ Hne) as (x & Hx & ->).
destruct (selectbox_pick "Y-Axis" _ Hne) as (y & Hy & ->).
destruct (selectbox_pick "Z-Axis" _ Hne) as (z & Hz & ->).
destruct (selectbox_pick "Category Column" (labels data)) as (n & Hn & ->).
{ unfold labels. by intros ?%fmap_nil_inv. }
destruct (first_label_some data Hcols) as (color & ->).
apply select_dtypes_plottable in Hx as (cx & Hcx & Hnx & ->).
apply select_dtypes_plottable in Hy as (cy & Hcy & Hny & ->).
apply select_dtypes_plottable in Hz as (cz & Hcz & Hnz & ->).
cbn. rewrite bool_decide_eq_false_2 by done.
unfold chart_types in Ht.
repeat (apply elem_of_cons in Ht as [->|Ht]); [..|by apply elem_of_nil in Ht];
  repeat case_bool_decide; try done; cbn.
all: match goal with
     | |- ∃ _ _, (?t, _) = _ ∧ _ =>
         exists (removelast t); eexists; split; [reflexivity|]
     end; cbn [removelast].
all: split; [by repeat constructor|].
all: split; [right; left|].
all: split; [right; right; left|].
all: intros a Ha; cbn [axes] in Ha;
  repeat (apply elem_of_cons in Ha as [->|Ha]); [..|by apply elem_of_nil in Ha];
  eexists; (split; [|split; [|reflexivity]]); assumption.
Qed.
End chart_facts.

(** C8: a frame without a numeric column gets the no-numeric-columns
    error and no chart; the error comes exactly when no column is float64
    or int64.  When there is such a column, the script only opens select
    boxes before it builds the one chart, the X and Y boxes offer these
    columns only, and every axis of the chart is one of them, hence a
    numeric column.  A frame whose only column is unsigned has a numeric
    column and still gets the error. *)
Theorem C8_numeric_axes `{Widgets} (data : DataFrame) :
  (Forall (λ c, ¬ numeric c) (columns data) →
   create_dashboard data =
     ([ st_selectbox "Select Chart Type" chart_types;
        st_error "No numeric columns found for visualization." ], Return ())) ∧
  (Forall (λ c, ¬ plottable c) (columns data) ↔
   create_dashboard data =
     ([ st_selectbox "Select Chart Type" chart_types;
        st_error "No numeric columns found for visualization." ], Return ())) ∧
  (Exists plottable (columns data) →
   ∃ boxes fig,
     create_dashboard data = (boxes ++ [st_plotly_chart fig], Return ()) ∧
     Forall is_selectbox boxes ∧
     st_selectbox "X-Axis" (select_dtypes [float64; int64] data) ∈ boxes ∧
     st_selectbox "Y-Axis" (select_dtypes [float64; int64] data) ∈ boxes ∧
     (∀ a, a ∈ axes fig →
        ∃ c, c ∈ columns data ∧ plottable c ∧ numeric c ∧ a = Some (label c))) ∧
  (Exists numeric (columns big_counts) ∧
   create_dashboard big_counts =
     ([ st_selectbox "Select Chart Type" chart_types;
        st_error "No numeric columns found for visualization." ], Return ())).
Proof.
  split_and!.
  - intros Hnone. apply create_dashboard_error.
    eapply Forall_impl; [exact Hnone|]. intros c Hc Hp. by apply Hc, plottable_numeric.
  - split; [apply create_dashboard_error|]. intros Hrun.
    destruct (decide (Exists plottable (columns data))) as [Hsome|Hnone];
      [|by apply not_Exists_Forall in Hnone; [|apply _]].
    destruct (create_dashboard_chart data Hsome) as (boxes & fig & Hchart & _).
    rewrite Hchart in Hrun. injection Hrun as Hrun.
    change [st_selectbox "Select Chart Type" chart_types;
            st_error "No numeric columns found for visualization."]
      with ([st_selectbox "Select Chart Type" chart_types] ++
            [st_error "No numeric columns found for visualization."]) in Hrun.
    by apply app_inj_tail in Hrun as [_ ?].
  - intros Hsome.
    destruct (create_dashboard_chart data Hsome) as (boxes & fig & Hrun & Hbox & Hx & Hy & Hax).
    exists boxes, fig. split_and!; try done.
    intros a Ha. destruct (Hax a Ha) as (c & Hc & Hp & ->).
    exists c. split_and!; try done. by apply plottable_numeric.
  - apply Exists_cons_hd. unfold numeric. simpl. rewrite !elem_of_cons. auto.
  - apply create_dashboard_error. repeat constructor.
    unfold plottable. simpl. rewrite !elem_of_cons, elem_of_nil. naive_solver.
Qed.

Lemma C8_numeric_axes_witness :
  @create_dashboard scatter_user payees_only =
    ([ st_selectbox "Select Chart Type" chart_types;
       st_error "No numeric columns found for visualization." ], Return ()) ∧
  ∃ boxes fig,
    @create_dashboard scatter_user ledger = (boxes ++ [st_plotly_chart fig], Return ()) ∧
    Forall is_selectbox boxes.
Proof.
  split.
  - apply (proj1 (@C8_numeric_axes scatter_user payees_only)).
    repeat constructor. intros Hnum. unfold numeric in Hnum. simpl in Hnum.
    by repeat (apply elem_of_cons in Hnum as [?|Hnum]; [done|]);
      apply elem_of_nil in Hnum.
  - destruct (proj1 (proj2 (proj2 (@C8_numeric_axes scatter_user ledger))))
      as (boxes & fig & Hrun & Hbox & _).
    + apply Exists_cons_tl, Exists_cons_hd. unfold plottable. simpl. left.
    + by exists boxes, fig.
Defined.

(** * Further properties of the script *)

(** ** The loader, all cases *)
Section loader_cases.
Context `{Tabular}.

Lemma process_pdf_cases (file : UploadedFile) :
  (∃ df, process_pdf file =
           ([called "tabula.read_pdf"; called "pd.concat"], Return (Some df))) ∨
  (∃ msg, process_pdf file =
            ([called "tabula.read_pdf"; st_error msg], Return None)) ∨
  (∃ msg, process_pdf file =
            ([called "tabula.read_pdf"; called "pd.concat"; st_error msg], Return None)).
Proof.
  destruct (read_pdf file) as [ts|e] eqn:Hr.
  - destruct (decide (ts = [])) as [->|Hts].
    + right. left. eexists. by apply process_pdf_no_tables.
    + destruct (pd_concat ts) as [df|e] eqn:Hc.
      * left. exists df. by eapply process_pdf_tables.
      * right. right. eexists. by eapply process_pdf_concat_raises.
  - right. left. eexists. by apply process_pdf_read_raises.
Qed.

Lemma csv_named_dec (file : UploadedFile) : csv_named file ∨ ¬ csv_named file.
Proof.
  destruct (Py.endswith (name file) ".csv") eqn:E.
  - left. by apply endswith_spec.
  - right. intros Hcsv%endswith_spec. congruence.
Qed.

Lemma pdf_named_dec (file : UploadedFile) : pdf_named file ∨ ¬ pdf_named file.
Proof.
  destruct (Py.endswith (name file) ".pdf") eqn:E.
  - left. by apply endswith_spec.
  - right. intros Hpdf%endswith_spec. congruence.
Qed.

(** The runs of [load_data]: the parser's answer, the parser's exception,
    the PDF path, or the unsupported format. *)
Lemma load_data_cases (file : UploadedFile) :
  (∃ df, csv_named file ∧ read_csv file = Return df ∧
         load_data file = ([called "pd.read_csv"], Return (Some df))) ∨
  (∃ e, csv_named file ∧ read_csv file = Raise e ∧
        load_data file = ([called "pd.read_csv"], Raise e)) ∨
  (¬ csv_named file ∧ pdf_named file ∧ load_data file = process_pdf file) ∨
  (¬ csv_named file ∧ ¬ pdf_named file ∧ load_data file = unsupported).
Proof.
  destruct (csv_named_dec file) as [Hcsv|Hcsv].
  - rewrite (load_data_csv file Hcsv). destruct (read_csv file) as [df|e]; eauto 10.
  - destruct (pdf_named_dec file) as [Hpdf|Hpdf].
    + right. right. left. split_and!; [done..|]. by apply load_data_pdf.
    + right. right. right. split_and!; [done..|]. by apply load_data_other.
Qed.
End loader_cases.

(** X1: the loader raises exactly when the name ends in ".csv" and the
    CSV parser raises, and then with the parser's exception; the PDF path
    and the unsupported format never raise. *)
Theorem X1_loader_raises_only_on_csv `{Tabular} (file : UploadedFile) (e : string) :
  (load_data file).2 = Raise e ↔ csv_named file ∧ read_csv file = Raise e.
Proof.
  destruct (load_data_cases file) as
    [(df & Hcsv & Hr & ->)|[(e' & Hcsv & Hr & ->)|[(Hcsv & _ & ->)|(Hcsv & _ & ->)]]];
    simpl.
  - split; [done|]. intros [_ ?]. congruence.
  - split; [by intros [= ->]|]. intros [_ ?]. congruence.
  - split; [|by intros [? _]].
    by destruct (process_pdf_cases file) as [(? & ->)|[(? & ->)|(? & ->)]].
  - split; [done | by intros [? _]].
Qed.

(** X2: a dataset comes without an error message, no dataset comes with
    exactly one, and an exception with none; the loader calls one reader
    at most, and [pd.concat] only after [tabula.read_pdf]. *)
Theorem X2_loader_error_or_dataset `{Tabular} (file : UploadedFile) :
  (∀ df, (load_data file).2 = Return (Some df) → errors (load_data file).1 = []) ∧
  ((load_data file).2 = Return None → ∃ msg, errors (load_data file).1 = [msg]) ∧
  (∀ e, (load_data file).2 = Raise e → errors (load_data file).1 = []) ∧
  calls (load_data file).1 ∈
    [ []; ["pd.read_csv"]; ["tabula.read_pdf"]; ["tabula.read_pdf"; "pd.concat"] ].
Proof.
  destruct (load_data_cases file) as
    [(df & _ & _ & ->)|[(e' & _ & _ & ->)|[(_ & _ & ->)|(_ & _ & ->)]]]; simpl.
  - split_and!; [done..|]. right. left.
  - split_and!; [done..|]. right. left.
  - destruct (process_pdf_cases file) as [(? & ->)|[(? & ->)|(? & ->)]]; simpl.
    + split_and!; [done..|]. do 3 right. left.
    + split_and!; [done | eauto | done |]. do 2 right. left.
    + split_and!; [done | eauto | done |]. do 3 right. left.
  - split_and!; [done | eauto | done |]. left.
Qed.

(** ** The detector, on frames with distinct labels *)

(** X3: on a frame with a column and with pairwise distinct labels the
    detection does not raise; whatever it returns, on any frame, never
    holds a value twice, so the options of the multiselect are distinct. *)
Theorem X3_detector_total_distinct `{PyStr} (data : DataFrame) :
  (columns data ≠ [] → NoDup (labels data) →
   ∃ cats, detect_categories data = Return cats) ∧
  (∀ cats, detect_categories data = Return cats → NoDup (options_of cats)).
Proof.
  split.
  - intros Hcols Hnd.
    destruct (detect_branch data) as [?|[(c & Hc & _ & ->)|(_ & Hn & Ht)]]; [done| |].
    + unfold column_unique. rewrite (getitem_distinct data c Hnd Hc). by eexists.
    + rewrite detect_fallback by done. by eexists.
  - intros cats [(c & _ & _ & ->)|(-> & _)]%detect_returns.
    + apply NoDup_unique.
    + apply (bool_decide_unpack _). by vm_compute.
Qed.

Lemma X3_detector_total_distinct_witness :
  ∃ cats, @detect_categories ascii_runtime type_column = Return cats.
Proof.
  apply (proj1 (@X3_detector_total_distinct ascii_runtime type_column)).
  - done.
  - apply (bool_decide_unpack _). by vm_compute.
Defined.

(** X4: in a frame with distinct labels and no column labelled
    "category", the detector answers the distinct values of the first
    text-typed column, in order of first appearance; a column "Type"
    holding A, B, A yields A, B. *)
Theorem X4_first_text_column `{PyStr} (data : DataFrame) (pre : list column) (c : column)
    (post : list column) :
  NoDup (labels data) →
  Forall (λ c', ¬ named_category c') (columns data) →
  columns data = pre ++ c :: post →
  text_typed c →
  Forall (λ c', ¬ text_typed c') pre →
  detect_categories data = Return (ndarray (unique (values c))).
Proof.
  intros Hnd Hnamed Hcols Hc Hpre.
  rewrite (detect_text_branch data pre c post Hnamed Hcols Hc Hpre).
  unfold column_unique. rewrite (getitem_distinct data c Hnd); [done|].
  rewrite Hcols, elem_of_app, elem_of_cons. auto.
Qed.

Lemma X4_first_text_column_witness :
  @detect_categories ascii_runtime type_column = Return (ndarray [Str "A"; Str "B"]).
Proof.
  refine (@X4_first_text_column ascii_runtime type_column
    [ {| label := "amount"; col_dtype := float64; values := [Float 1; Float 2; Float 1] |} ]
    {| label := "Type"; col_dtype := object; values := [Str "A"; Str "B"; Str "A"] |}
    [ {| label := "note"; col_dtype := object; values := [Str "x"; Str "y"; Str "z"] |} ]
    _ _ _ _ _).
  - apply (bool_decide_unpack _). by vm_compute.
  - repeat constructor; by intros [=].
  - reflexivity.
  - reflexivity.
  - repeat constructor. by intros [=].
Defined.

(** ** The allocator, all selections *)
Section allocator_any.
Open Scope Qc_scope.

Lemma share_in_unit_interval (n : nat) :
  (0 < n)%nat → 0 < 1 / Qc_of_Z (Z.of_nat n) ∧ 1 / Qc_of_Z (Z.of_nat n) ≤ 1.
Proof.
  intros Hn.
  assert (0 < Qc_of_Z (Z.of_nat n)) as Hpos by (apply Qc_of_Z_pos; lia).
  split.
  - unfold Qcdiv. rewrite Qcmult_1_l. by apply Qcinv_pos.
  - apply (Qcmult_le_mono_pos_r _ _ (Qc_of_Z (Z.of_nat n)) Hpos).
    replace (1 / Qc_of_Z (Z.of_nat n) * Qc_of_Z (Z.of_nat n)) with (Qc_of_Z 1).
    + rewrite Qcmult_1_l. apply (proj1 (Z2Qc_inj_le 1 (Z.of_nat n))). lia.
    + rewrite Z2Qc_inj_1. field. apply Qc_of_Z_nonzero. lia.
Qed.

End allocator_any.

(** X5: for any non-empty selection, repeated labels included, the
    allocator does not raise (no divisor is zero), divides n - 1 times, and
    builds a map with one entry for each distinct label, the keys in order
    of first selection. *)
Theorem X5_allocation_any_selection (l : list string) :
  l ≠ [] →
  ∃ m, budget_allocation l = Return (Some m, pred (length l)) ∧
       dict_keys m = unique l ∧
       length m = length (unique l).
Proof.
  intros Hne. eexists. split; [by apply budget_allocation_closed|].
  split; [apply assign_each_keys | apply assign_each_size].
Qed.

Lemma X5_allocation_any_selection_witness :
  ∃ m, budget_allocation ["Bills"; "Fun"; "Bills"; "Rent"] = Return (Some m, 3) ∧
       dict_keys m = ["Bills"; "Fun"; "Rent"] ∧
       length m = 3.
Proof. by apply (X5_allocation_any_selection ["Bills"; "Fun"; "Bills"; "Rent"]). Defined.

(** X6: in the map of a non-empty selection, a selected label is bound to
    a fraction above 0 and at most 1, and a label that was not selected is
    not bound. *)
Theorem X6_shares_are_fractions (l : list string) (m : dict) (d : nat) :
  budget_allocation l = Return (Some m, d) →
  (∀ k, k ∈ l → ∃ v, dict_get k m = Some v ∧ (0 < v)%Qc ∧ (v ≤ 1)%Qc) ∧
  (∀ k, k ∉ l → dict_get k m = None).
Proof.
  intros Hrun.
  assert (l ≠ []) as Hne by (by intros ->).
  rewrite budget_allocation_closed in Hrun by done. injection Hrun as <- _.
  split; intros k Hk; rewrite dict_get_assign.
  - rewrite decide_True by done. eexists. split; [done|].
    apply share_in_unit_interval. destruct l; [done | simpl; lia].
  - by rewrite decide_False.
Qed.

Lemma X6_shares_are_fractions_witness :
  ∃ v, dict_get "Rent" [("Rent", (1 / Qc_of_Z 2)%Qc); ("Food", (1 / Qc_of_Z 2)%Qc)] = Some v ∧
       (0 < v)%Qc ∧ (v ≤ 1)%Qc.
Proof.
  refine (proj1 (X6_shares_are_fractions ["Rent"; "Food"] _ 1 _) "Rent" _).
  - by rewrite budget_allocation_closed.
  - left.
Defined.

(** X7: for a non-empty selection the allocation block draws one pie
    chart and nothing else: one slice for each distinct label, named in
    order of first selection, under the title "Recommended Monthly Budget
    Distribution". *)
Theorem X7_one_pie_chart (l : list string) :
  l ≠ [] →
  ∃ slices,
    allocation_chart l =
      ([ st_plotly_chart
           (px_pie_of slices (unique l) "Recommended Monthly Budget Distribution") ],
       Return ()) ∧
    length slices = length (unique l).
Proof.
  intros Hne. unfold allocation_chart.
  rewrite budget_allocation_closed by done. simpl.
  rewrite assign_each_keys. eexists. split; [done|].
  by rewrite dict_length_values, assign_each_size.
Qed.

Lemma X7_one_pie_chart_witness :
  ∃ slices,
    allocation_chart ["Savings"; "Bills"] =
      ([ st_plotly_chart
           (px_pie_of slices ["Savings"; "Bills"] "Recommended Monthly Budget Distribution") ],
       Return ()) ∧
    length slices = 2.
Proof. by apply (X7_one_pie_chart ["Savings"; "Bills"]). Defined.

(** ** The recommendations loop *)
Section recommendations_facts.
Context `{PyStr}.
Implicit Types (g : Z) (c : string) (l : list string).

Lemma recommend_three_lines g c :
  ∃ a b, recommend g c = ([heading c; st_write a; st_write b], Return ()).
Proof.
  unfold recommend.
  destruct (Py.contains "saving" _); [by eexists _, _|].
  destruct (Py.contains "invest" _); [by eexists _, _|].
  destruct (Py.contains "bill" _); by eexists _, _.
Qed.

Lemma recommendations_cons g c l :
  recommendations g (c :: l) =
    ((recommend g c).1 ++ (recommendations g l).1, (recommendations g l).2).
Proof.
  destruct (recommend_three_lines g c) as (a & b & Hc).
  cbn [recommendations]. rewrite Hc. cbn [mbind script_bind].
  by destruct (recommendations g l).
Qed.
End recommendations_facts.

(** X8: the loop writes the advice of each label in the order of the
    selection, three lines a label, the heading of the label at index i
    being line 3 i, and it does not raise. *)
Theorem X8_recommendations_in_order `{PyStr} (g : Z) (l : list string) :
  (recommendations g l).2 = Return () ∧
  (recommendations g l).1 = l ≫= (λ c, (recommend g c).1) ∧
  length (recommendations g l).1 = 3 * length l ∧
  (∀ i c, l !! i = Some c → (recommendations g l).1 !! (3 * i) = Some (heading c)).
Proof.
  induction l as [|c l (IHr & IHt & IHn & IHh)]; [by split_and!|].
  rewrite recommendations_cons. cbn [fst snd].
  destruct (recommend_three_lines g c) as (a & b & Hc).
  split_and!.
  - done.
  - by rewrite bind_cons, IHt.
  - rewrite length_app, IHn, Hc. simpl. lia.
  - intros [|i] c' Hi; rewrite Hc; simplify_eq/=; [done|].
    replace (i + S (i + S (i + 0))) with (S (S (3 * i))) by lia. by apply IHh.
Qed.

(** ** The chart builder, by chart type *)
Section chart_type_facts.
Context `{Widgets}.

Lemma selectbox_chosen (lbl : string) (options : list string) (o : string) :
  options !! chosen lbl = Some o →
  selectbox lbl options = ([st_selectbox lbl options], Return (Some o)).
Proof. intros Hpick. unfold selectbox. by rewrite Hpick. Qed.

Lemma first_label_head (data : DataFrame) :
  columns data ≠ [] →
  ∃ lbl, first_label data = Return lbl ∧ head (labels data) = Some lbl.
Proof.
  unfold first_label, labels. destruct (columns data) as [|c rest]; [done|]. eauto.
Qed.
End chart_type_facts.

(** X9: with a float64 or int64 column in the frame (what the filter of
    line 125 keeps), the one chart drawn is of the type selected, with the
    palette of that type; bar, line and area charts open three select
    boxes; the pie chart opens a fourth one over all columns for its names;
    the 3D scatter plot opens a fourth one over the float64 and int64
    columns for Z and colours by the first column of the frame. *)
Theorem X9_chart_of_selected_type `{Widgets} (data : DataFrame) (t : string) :
  Exists plottable (columns data) →
  chart_types !! chosen "Select Chart Type" = Some t →
  ∃ boxes fig,
    create_dashboard data = (boxes ++ [st_plotly_chart fig], Return ()) ∧
    chart_name fig = t ∧
    match fig with
    | px_bar _ _ colors => colors = Bold ∧ length boxes = 3
    | px_line _ _ colors => colors = Pastel ∧ length boxes = 3
    | px_area _ _ colors => colors = Vivid ∧ length boxes = 3
    | px_pie names _ colors =>
        colors = Safe ∧
        boxes !! 3 = Some (st_selectbox "Category Column" (labels data)) ∧
        length boxes = 4 ∧
        ∃ c, c ∈ columns data ∧ names = Some (label c)
    | px_scatter_3d _ _ _ color colors =>
        colors = Prism ∧
        boxes !! 3 = Some (st_selectbox "Z-Axis" (select_dtypes [float64; int64] data)) ∧
        length boxes = 4 ∧
        head (labels data) = Some color
    | px_pie_of _ _ _ => False
    end.
Proof.
  intros Hsome Ht.
  assert (select_dtypes [float64; int64] data ≠ []) as Hne.
  { intros Hnil%no_plottable_columns. by eapply Forall_Exists_neg. }
  assert (columns data ≠ []) as Hcols.
  { intros Hnil. rewrite Hnil in Hsome. by apply Exists_nil in Hsome. }
  unfold create_dashboard. rewrite (selectbox_chosen _ _ _ Ht).
  apply list_elem_of_lookup_2 in Ht.
  destruct (selectbox_pick "X-Axis" _ Hne) as (x & _ & ->).
  destruct (selectbox_pick "Y-Axis" _ Hne) as (y & _ & ->).
  destruct (selectbox_pick "Z-Axis" _ Hne) as (z & _ & ->).
  destruct (selectbox_pick "Category Column" (labels data)) as (n & Hn & ->).
  { unfold labels. by intros ?%fmap_nil_inv. }
  destruct (first_label_head data Hcols) as (color & -> & Hhead).
  apply list_elem_of_fmap in Hn as (cn & -> & Hcn).
  cbn. rewrite bool_decide_eq_false_2 by done.
  unfold chart_types in Ht.
  repeat (apply elem_of_cons in Ht as [->|Ht]); [..|by apply elem_of_nil in Ht];
    repeat case_bool_decide; try done; cbn.
  all: match goal with
       | |- ∃ _ _, (?t, _) = _ ∧ _ =>
           exists (removelast t); eexists; split; [reflexivity|]
       end; cbn [removelast].
  all: split; [reflexivity|]; split_and!; try done.
  by exists cn.
Qed.

Lemma X9_chart_of_selected_type_witness :
  ∃ boxes fig,
    @create_dashboard pie_user ledger = (boxes ++ [st_plotly_chart fig], Return ()) ∧
    chart_name fig = "Pie Chart".
Proof.
  destruct (@X9_chart_of_selected_type pie_user ledger "Pie Chart")
    as (boxes & fig & Hrun & Hname & _).
  - apply Exists_cons_tl, Exists_cons_hd. unfold plottable. simpl. left.
  - reflexivity.
  - by exists boxes, fig.
Defined.


(** ** The pages *)
Section page_facts.
Context `{PyStr} `{Session}.

Lemma radio_pages :
  radio "Go to" pages =
    page [st_radio "Go to" pages]
         (Return (Some (if decide (page_choice = 1) then "Recommendations"
                        else "Data Analytics"))).
Proof.
  unfold radio, pages. destruct page_choice as [|[|n]]; reflexivity.
Qed.

Lemma selection_distinct (options : list cell) :
  NoDup options →
  NoDup (omap (λ i, options !! i) (unique picks)) ∧
  ∀ c, c ∈ omap (λ i, options !! i) (unique picks) → c ∈ options.
Proof.
  intros Hnd. split.
  - pose proof (NoDup_unique picks) as Hpicks.
    induction Hpicks as [|i more Hi _ IH]; [constructor|].
    cbn [omap list_omap]. destruct (options !! i) as [c|] eqn:Hc; [|done].
    constructor; [|done].
    intros (j & Hj & Hcj)%list_elem_of_omap.
    by rewrite (NoDup_lookup _ _ _ _ Hnd Hc Hcj) in Hi.
  - intros c (i & _ & Hi)%list_elem_of_omap. by eapply list_elem_of_lookup_2.
Qed.

Lemma recommend_values_str (g : Z) (l : list string) :
  recommend_values g (Str <$> l) = recommendations g l.
Proof. induction l as [|c l IH]; [done|]. cbn. by rewrite IH. Qed.

Lemma all_str (sel : list cell) :
  Forall (λ c, is_Some (as_str c)) sel → sel = Str <$> omap as_str sel.
Proof.
  induction 1 as [|c sel [s Hs] _ IH]; [done|].
  destruct c; simplify_eq/=. by rewrite <- IH.
Qed.

Lemma recommend_values_raises (g : Z) (sel : list cell) :
  Exists (λ c, as_str c = None) sel →
  (recommend_values g sel).2 = Raise "AttributeError" ∧
  ∀ fig, st_plotly_chart fig ∉ (recommend_values g sel).1.
Proof.
  induction sel as [|c sel IH]; intros Hex; [by apply Exists_nil in Hex|].
  destruct c as [s| | |].
  - apply Exists_cons in Hex as [[=]|Hex]. destruct (IH Hex) as [Hr Hno].
    cbn [recommend_values recommend_value].
    destruct (recommend_three_lines g s) as (a & b & ->).
    cbn [mbind script_bind]. destruct (recommend_values g sel) as [t r]. simpl in *.
    split; [done|]. intros fig Hin.
    repeat (apply elem_of_cons in Hin as [[=]|Hin]). by eapply Hno.
  - split; [done|]. intros fig Hin. cbn in Hin.
    repeat (apply elem_of_cons in Hin as [[=]|Hin]). by apply elem_of_nil in Hin.
  - split; [done|]. intros fig Hin. cbn in Hin.
    repeat (apply elem_of_cons in Hin as [[=]|Hin]). by apply elem_of_nil in Hin.
  - split; [done|]. intros fig Hin. cbn in Hin.
    repeat (apply elem_of_cons in Hin as [[=]|Hin]). by apply elem_of_nil in Hin.
Qed.

Lemma display_run (data : DataFrame) (cats : categories) :
  detect_categories data = Return cats →
  display_recommendations (Some data) =
    page ([ st_slider "Monthly Savings Goal ($)" 0 5000;
            st_multiselect "Select Priority Categories" (options_of cats) ] ++
          (shown <$> (recommend_values goal (selection cats)).1) ++
          match (recommend_values goal (selection cats)).2 with
          | Return _ => shown <$> (allocation_chart (omap as_str (selection cats))).1
          | Raise _ => []
          end)
         (match (recommend_values goal (selection cats)).2 with
          | Return _ => (allocation_chart (omap as_str (selection cats))).2
          | Raise e => Raise e
          end).
Proof.
  intros Hdet. unfold display_recommendations. rewrite Hdet.
  unfold show, slider, multiselect, page_emit, lift.
  cbn [mbind mret page_bind page_ret page_trace page_result fst snd fmap list_fmap app].
  fold goal (selection cats).
  destruct (recommend_values goal (selection cats)) as [t [[]|e]];
    cbn [mbind mret page_bind page_ret page_trace page_result fst snd app].
  - done.
  - by rewrite app_nil_r.
Qed.

(** When the detection raises, the page shows none of its widgets. *)
Lemma display_raise (data : DataFrame) (e : string) :
  detect_categories data = Raise e →
  display_recommendations (Some data) = page [] (Raise e).
Proof. intros Hdet. unfold display_recommendations. by rewrite Hdet. Qed.

Lemma allocation_chart_returns (l : list string) : (allocation_chart l).2 = Return ().
Proof.
  destruct l as [|c l]; [done|]. unfold allocation_chart.
  by rewrite budget_allocation_closed.
Qed.

Lemma recommendations_returns (g : Z) (l : list string) :
  (recommendations g l).2 = Return ().
Proof. induction l as [|c l IH]; [done|]. by rewrite recommendations_cons. Qed.

Lemma options_distinct (data : DataFrame) (cats : categories) :
  detect_categories data = Return cats → NoDup (options_of cats).
Proof.
  intros [(c & _ & _ & ->)|(-> & _)]%detect_returns.
  - apply NoDup_unique.
  - apply (bool_decide_unpack _). by vm_compute.
Qed.

(** The chart of the allocation block: none for the empty selection, else
    one pie with a slice for each label. *)
Lemma allocation_chart_slices (l : list string) :
  NoDup l →
  (l = [] → allocation_chart l = ([], Return ())) ∧
  (l ≠ [] →
   ∃ slices,
     allocation_chart l =
       ([ st_plotly_chart
            (px_pie_of slices l "Recommended Monthly Budget Distribution") ], Return ()) ∧
     length slices = length l).
Proof.
  intros Hnd. split; [by intros ->|]. intros Hne. unfold allocation_chart.
  rewrite budget_allocation_closed by done. simpl.
  rewrite assign_each_keys, (unique_NoDup l Hnd). eexists. split; [done|].
  by rewrite dict_length_values, assign_each_size, (unique_NoDup l Hnd).
Qed.

Lemma as_str_distinct (sel : list cell) : NoDup sel → NoDup (omap as_str sel).
Proof.
  induction 1 as [|c sel Hc _ IH]; [constructor|].
  cbn [omap list_omap]. destruct (as_str c) as [s|] eqn:Hs; [|done].
  constructor; [|done].
  intros (c' & Hc' & Hs')%list_elem_of_omap.
  destruct c, c'; simplify_eq/=. done.
Qed.

Lemma shown_chart (fig : figure) (t : list event) :
  shown (st_plotly_chart fig) ∈ shown <$> t → st_plotly_chart fig ∈ t.
Proof. by intros (e & [= <-] & He)%list_elem_of_fmap. Qed.
End page_facts.

(** X10: when the detection returns and every detected category is a
    [str], the recommendations page does not raise: it shows the slider and
    the multiselect, then the advice for the selected labels in order, then
    the allocation chart of these labels: no chart for the empty selection,
    else one pie with a slice for each selected label; the goal lies between
    0 and 5000 and no label is handed to the allocator twice. *)
Theorem X10_text_selection `{PyStr} `{Session} (data : DataFrame) (cats : categories) :
  detect_categories data = Return cats →
  Forall (λ c, is_Some (as_str c)) (options_of cats) →
  ∃ chart,
    display_recommendations (Some data) =
      page ([ st_slider "Monthly Savings Goal ($)" 0 5000;
              st_multiselect "Select Priority Categories" (options_of cats) ] ++
            (shown <$> (recommendations goal (omap as_str (selection cats))).1) ++
            (shown <$> chart))
           (Return ()) ∧
    (omap as_str (selection cats) = [] → chart = []) ∧
    (omap as_str (selection cats) ≠ [] →
     ∃ slices,
       chart = [ st_plotly_chart
                   (px_pie_of slices (omap as_str (selection cats))
                              "Recommended Monthly Budget Distribution") ] ∧
       length slices = length (omap as_str (selection cats))) ∧
    NoDup (omap as_str (selection cats)) ∧
    (0 ≤ goal ≤ 5000)%Z.
Proof.
  intros Hdet Hstr.
  destruct (selection_distinct (options_of cats)) as [Hnd Hsub];
    [by eapply options_distinct|].
  fold (selection cats) in Hnd, Hsub.
  assert (selection cats = Str <$> omap as_str (selection cats)) as Hsel.
  { apply all_str, Forall_forall. intros c Hc.
    rewrite Forall_forall in Hstr. by apply Hstr, Hsub. }
  apply as_str_distinct in Hnd.
  destruct (allocation_chart_slices _ Hnd) as [Hnone Hsome].
  exists (allocation_chart (omap as_str (selection cats))).1.
  split; [|split; [|split; [|split]]].
  - rewrite (display_run data cats Hdet).
    rewrite Hsel at 1 2 3. rewrite recommend_values_str, recommendations_returns.
    by rewrite allocation_chart_returns.
  - intros Hnil. by rewrite (Hnone Hnil).
  - intros Hne. destruct (Hsome Hne) as (slices & -> & Hlen). by exists slices.
  - done.
  - unfold goal. lia.
Qed.

Lemma X10_text_selection_witness :
  ∃ t, @display_recommendations ascii_runtime planner (Some food_rent) = page t (Return ()).
Proof.
  destruct (@X10_text_selection ascii_runtime planner food_rent
              (ndarray [Str "Food"; Str "Rent"]))
    as (chart & Hrun & _).
  - reflexivity.
  - repeat constructor; by eexists.
  - rewrite Hrun. by eexists.
Defined.

(** X11: when a selected category is no [str] (a number of a numeric
    "category" column, a missing value), the recommendations page raises
    the [AttributeError] of [category.lower()] and draws no chart. *)
Theorem X11_non_text_selection `{PyStr} `{Session} (data : DataFrame) (cats : categories) :
  detect_categories data = Return cats →
  Exists (λ c, as_str c = None) (selection cats) →
  page_result (display_recommendations (Some data)) = Raise "AttributeError" ∧
  ∀ fig, shown (st_plotly_chart fig) ∉ page_trace (display_recommendations (Some data)).
Proof.
  intros Hdet Hex.
  destruct (recommend_values_raises goal (selection cats) Hex) as [Hraise Hnone].
  rewrite (display_run data cats Hdet), Hraise. cbn [page_result page_trace].
  split; [done|]. intros fig Hin. rewrite app_nil_r in Hin.
  repeat (apply elem_of_cons in Hin as [[=]|Hin]).
  by apply shown_chart, Hnone in Hin.
Qed.


Section display_result.
Context `{PyStr} `{Session}.

Lemma display_quiet (data : DataFrame) (ev : page_event) :
  ev ∈ page_trace (display_recommendations (Some data)) →
  (∃ e, ev = shown e) ∨ (∃ lbl lo hi, ev = st_slider lbl lo hi) ∨
  (∃ lbl options, ev = st_multiselect lbl options).
Proof.
  destruct (detect_categories data) as [cats|e] eqn:Hdet.
  - rewrite (display_run data cats Hdet); cbn [page_trace].
    rewrite !elem_of_app, !elem_of_cons, elem_of_nil, !list_elem_of_fmap.
    destruct (recommend_values goal _).2;
      rewrite ?list_elem_of_fmap, ?elem_of_nil; naive_solver.
  - rewrite (display_raise data e Hdet). cbn [page_trace]. by intros ?%elem_of_nil.
Qed.
End display_result.

Section main_facts.
Context `{PyStr} `{Session} `{Tabular} `{Widgets}.


Lemma main_no_upload :
  upload = None → main = page [radio_box; upload_box] (Return ()).
Proof.
  intros Hup. unfold main. rewrite radio_pages. unfold file_uploader, page_emit.
  destruct (decide (page_choice = 1));
    cbn [mbind mret page_bind page_ret page_trace page_result app];
    repeat case_bool_decide; try done;
    cbn [mbind mret page_bind page_ret page_trace page_result app];
    by rewrite Hup.
Qed.

Lemma main_analytics (file : UploadedFile) :
  page_choice ≠ 1 → upload = Some file →
  main =
    match (load_data file).2 with
    | Return (Some data) =>
        page ([radio_box; upload_box] ++ (shown <$> (load_data file).1) ++
              [ st_success "Data loaded successfully!🥳🙌🏻";
                shown (st_write "### Uploaded Data Preview");
                st_dataframe data ] ++
              (shown <$> (create_dashboard data).1))
             (create_dashboard data).2
    | Return None =>
        page ([radio_box; upload_box] ++ (shown <$> (load_data file).1)) (Return ())
    | Raise e =>
        page ([radio_box; upload_box] ++ (shown <$> (load_data file).1)) (Raise e)
    end.
Proof.
  intros Hpage Hup. unfold main. rewrite radio_pages.
  unfold file_uploader, page_emit, show, emit. rewrite decide_False by done.
  cbn [mbind mret page_bind page_ret page_trace page_result app].
  rewrite bool_decide_eq_true_2 by done.
  cbn [mbind mret page_bind page_ret page_trace page_result app]. rewrite Hup.
  destruct (load_data file) as [t [[data|]|e]];
    cbn [mbind mret page_bind page_ret page_trace page_result app fst snd
         fmap list_fmap].
  - destruct (create_dashboard data) as [t' r]. done.
  - by rewrite app_nil_r.
  - done.
Qed.

Lemma main_recommendations (file : UploadedFile) :
  page_choice = 1 → upload = Some file →
  main =
    match (load_data file).2 with
    | Return (Some data) =>
        page ([radio_box; upload_box] ++ (shown <$> (load_data file).1) ++
              page_trace (display_recommendations (Some data)))
             (page_result (display_recommendations (Some data)))
    | Return None =>
        page ([radio_box; upload_box] ++ (shown <$> (load_data file).1)) (Return ())
    | Raise e =>
        page ([radio_box; upload_box] ++ (shown <$> (load_data file).1)) (Raise e)
    end.
Proof.
  intros Hpage Hup. unfold main. rewrite radio_pages.
  unfold file_uploader, page_emit, show. rewrite decide_True by done.
  cbn [mbind mret page_bind page_ret page_trace page_result app].
  rewrite bool_decide_eq_false_2 by done. rewrite bool_decide_eq_true_2 by done.
  cbn [mbind mret page_bind page_ret page_trace page_result app]. rewrite Hup.
  destruct (load_data file) as [t [[data|]|e]];
    cbn [mbind mret page_bind page_ret page_trace page_result app fst snd].
  - done.
  - by rewrite app_nil_r.
  - done.
Qed.

End main_facts.

Lemma X11_non_text_selection_witness :
  page_result (@display_recommendations ascii_runtime planner (Some coded_categories)) =
    Raise "AttributeError".
Proof.
  apply (@X11_non_text_selection ascii_runtime planner coded_categories
           (ndarray [Int 3; Int 1])).
  - reflexivity.
  - apply Exists_cons_hd. reflexivity.
Defined.

(** X12: without an uploaded file, or when the loader yields no dataset,
    [main] shows on either page the two widgets and what the loader
    reported, and nothing else: no preview, no chart, no recommendations. *)
Theorem X12_main_without_dataset `{PyStr} `{Session} `{Tabular} `{Widgets} :
  (upload = None → main = page [radio_box; upload_box] (Return ())) ∧
  (∀ file, upload = Some file → (load_data file).2 = Return None →
     main = page ([radio_box; upload_box] ++ (shown <$> (load_data file).1)) (Return ())).
Proof.
  split; [apply main_no_upload|]. intros file Hup Hnone.
  destruct (decide (page_choice = 1)) as [Hpage|Hpage].
  - by rewrite (main_recommendations file Hpage Hup), Hnone.
  - by rewrite (main_analytics file Hpage Hup), Hnone.
Qed.

Lemma X12_main_without_dataset_witness :
  @main ascii_runtime visitor single_table scatter_user =
    page [radio_box; upload_box] (Return ()).
Proof.
  by apply (proj1 (@X12_main_without_dataset ascii_runtime visitor single_table scatter_user)).
Defined.

(** X13: [main] catches nothing.  When the CSV parser raises on an
    uploaded ".csv" file, on either page, [main] ends with that exception
    after the two widgets and the call of the parser.  When, on the
    recommendations page, the category detection raises on the loaded
    dataset (the label of the column it goes to is repeated), [main] ends
    with that exception before the slider and the multiselect are shown. *)
Theorem X13_main_raises `{PyStr} `{Session} `{Tabular} `{Widgets}
    (file : UploadedFile) (e : string) :
  upload = Some file →
  (csv_named file → read_csv file = Raise e →
   main = page [radio_box; upload_box; shown (called "pd.read_csv")] (Raise e)) ∧
  (∀ data, page_choice = 1 → (load_data file).2 = Return (Some data) →
     columns data ≠ [] →
     detect_categories data = Raise e →
     main = page ([radio_box; upload_box] ++ (shown <$> (load_data file).1)) (Raise e)).
Proof.
  intros Hup. split.
  - intros Hcsv Hparse.
    destruct (decide (page_choice = 1)) as [Hpage|Hpage].
    + rewrite (main_recommendations file Hpage Hup).
      by rewrite (load_data_csv file Hcsv), Hparse.
    + rewrite (main_analytics file Hpage Hup).
      by rewrite (load_data_csv file Hcsv), Hparse.
  - intros data Hpage Hload _ Hdet.
    rewrite (main_recommendations file Hpage Hup), Hload.
    rewrite (display_raise data e Hdet). cbn [page_trace page_result].
    by rewrite app_nil_r.
Qed.

Lemma X13_main_raises_witness :
  @main ascii_runtime analyst clashing_tables scatter_user =
    page [radio_box; upload_box; shown (called "pd.read_csv")] (Raise "ParserError") ∧
  @main ascii_runtime pdf_planner repeated_header scatter_user =
    page [radio_box; upload_box; shown (called "tabula.read_pdf"); shown (called "pd.concat")]
         (Raise "AttributeError").
Proof.
  split.
  - apply (proj1 (@X13_main_raises ascii_runtime analyst clashing_tables scatter_user
                    bank_csv "ParserError" eq_refl)).
    + by exists "bank".
    + reflexivity.
  - apply (proj2 (@X13_main_raises ascii_runtime pdf_planner repeated_header scatter_user
                    statement_pdf "AttributeError" eq_refl) category_twice).
    + reflexivity.
    + reflexivity.
    + done.
    + reflexivity.
Defined.

(** X14: on the analytics page, a loaded dataset is followed by the
    success message, the line "### Uploaded Data Preview", the preview of
    that very dataset and the events of the chart builder, and [main] ends
    as the chart builder does. *)
Theorem X14_analytics_page `{PyStr} `{Session} `{Tabular} `{Widgets}
    (file : UploadedFile) (data : DataFrame) :
  page_choice ≠ 1 →
  upload = Some file →
  (load_data file).2 = Return (Some data) →
  main =
    page ([radio_box; upload_box] ++ (shown <$> (load_data file).1) ++
          [ st_success "Data loaded successfully!🥳🙌🏻";
            shown (st_write "### Uploaded Data Preview");
            st_dataframe data ] ++
          (shown <$> (create_dashboard data).1))
         (create_dashboard data).2.
Proof.
  intros Hpage Hup Hload.
  by rewrite (main_analytics file Hpage Hup), Hload.
Qed.

Lemma X14_analytics_page_witness :
  ∃ t r, @main ascii_runtime analyst single_table scatter_user = page t r ∧
         st_dataframe one_table ∈ t.
Proof.
  eexists _, _. split.
  - by apply (@X14_analytics_page ascii_runtime analyst single_table scatter_user
                bank_csv one_table).
  - rewrite !elem_of_app, !elem_of_cons. right. right. left. right. right. by left.
Defined.

(** X15: [main] never shows the upload-first warning of the
    recommendations page (it calls that page with a dataset only), and
    it shows a success message only on the analytics page, with a dataset
    loaded, whose preview it then shows. *)
Theorem X15_main_messages `{PyStr} `{Session} `{Tabular} `{Widgets} :
  (∀ msg, st_warning msg ∉ page_trace main) ∧
  (∀ msg, st_success msg ∈ page_trace main →
     page_choice ≠ 1 ∧
     ∃ file data, upload = Some file ∧
                  (load_data file).2 = Return (Some data) ∧
                  st_dataframe data ∈ page_trace main).
Proof.
  assert (∀ ev, ev ∈ page_trace main →
            ev = radio_box ∨ ev = upload_box ∨ (∃ e, ev = shown e) ∨
            (∃ lbl lo hi, ev = st_slider lbl lo hi) ∨
            (∃ lbl options, ev = st_multiselect lbl options) ∨
            (page_choice ≠ 1 ∧
             ∃ file data, upload = Some file ∧ (load_data file).2 = Return (Some data) ∧
                          st_dataframe data ∈ page_trace main ∧
                          (ev = st_success "Data loaded successfully!🥳🙌🏻" ∨
                           ev = st_dataframe data))) as Hev.
  { intros ev. destruct upload as [file|] eqn:Hup; last first.
    { rewrite (main_no_upload Hup). cbn [page_trace].
      rewrite !elem_of_cons, elem_of_nil. naive_solver. }
    destruct (decide (page_choice = 1)) as [Hpage|Hpage].
    - rewrite (main_recommendations file Hpage Hup).
      destruct (load_data file).2 as [[data|]|e]; cbn [page_trace];
        rewrite ?elem_of_app, !elem_of_cons, elem_of_nil, ?list_elem_of_fmap.
      + intros [?|[?|Hdisp]]; [naive_solver..|].
        apply display_quiet in Hdisp. naive_solver.
      + naive_solver.
      + naive_solver.
    - rewrite (main_analytics file Hpage Hup).
      destruct (load_data file).2 as [[data|]|e] eqn:Hload; cbn [page_trace].
      + set (trace := _ ++ _ ++ _ ++ _).
        assert (st_dataframe data ∈ trace) as Hpreview.
        { unfold trace. rewrite !elem_of_app, !elem_of_cons. naive_solver. }
        unfold trace at 1.
        rewrite !elem_of_app, !elem_of_cons, elem_of_nil, !list_elem_of_fmap.
        intros [[?|[?|?]]|[?|[[?|[?|[?|?]]]|?]]];
          [naive_solver..| |naive_solver| |done|naive_solver].
        * do 5 right. split; [done|]. exists file, data. by split_and!; [..|left].
        * do 5 right. split; [done|]. exists file, data. by split_and!; [..|right].
      + rewrite !elem_of_app, !elem_of_cons, elem_of_nil, !list_elem_of_fmap.
        naive_solver.
      + rewrite !elem_of_app, !elem_of_cons, elem_of_nil, !list_elem_of_fmap.
        naive_solver. }
  split.
  - intros msg Hin. apply Hev in Hin. unfold radio_box, upload_box in Hin. naive_solver.
  - intros msg Hin. apply Hev in Hin. unfold radio_box, upload_box in Hin. naive_solver.
Qed.
